(** * Facility 365: a shallow embedding of src/Facility.py

    The SQLite store is a record of finite maps keyed by each table's
    primary key (so the PRIMARY KEY constraint is the map's key): users by
    username, requests by id, payments by payment_id; the audit table
    (AUTOINCREMENT) is an append-only list. Every SQL write issued by the
    program is a constructor of [stmt], with its SQL text and its bound
    parameters as the source writes them; [exec] is its effect on the store.
    Each button press of a dashboard is an [event]; [event_stmts] is the
    list of statements its handler issues, computed from the rows the page
    fetched in that run (the guard of the button), and [run] executes them
    one by one, each [run_query] committing on its own, stopping at the
    first statement SQLite rejects. Money columns (REAL) are rationals. *)

From Stdlib Require Import QArith String Ascii.
From stdpp Require Import base gmap strings list fin_maps pretty.

Open Scope string_scope.

(** ** Rows *)

Record user_row := mk_user {
  username : string; password : string; role : string; name : string;
  email : string; dept : string; hod_email : string; force_reset : Z }.

Record request_row := mk_request {
  id : string; user_key : string; requester_name : string;
  department : string; approver_email : string; category : string;
  item : string; status : string; amount : Q; initial_cost : Q;
  vendor : string; invoice_img : option (list Byte.byte);
  sac_note : string; date : string }.

Record payment_row := mk_payment {
  payment_id : string; req_id : string; pay_amount : Q;
  pay_status : string; pay_vendor : string }.

Record audit_row := mk_audit {
  timestamp : string; a_user : string; action : string; details : string }.

(** Table name -> declared columns (name, declared type). *)
Record store := mk_store {
  schema : gmap string (list (string * string));
  users : gmap string user_row;
  requests : gmap string request_row;
  audit : list audit_row;
  payments : gmap string payment_row }.

Definition empty_store : store := mk_store ∅ ∅ ∅ [] ∅.

Definition set_schema (s : store) sc := mk_store sc (users s) (requests s) (audit s) (payments s).
Definition set_users (s : store) us := mk_store (schema s) us (requests s) (audit s) (payments s).
Definition set_requests (s : store) rs := mk_store (schema s) (users s) rs (audit s) (payments s).
Definition set_audit (s : store) au := mk_store (schema s) (users s) (requests s) au (payments s).
Definition set_payments (s : store) ps := mk_store (schema s) (users s) (requests s) (audit s) ps.

(** ** Row updates performed by the UPDATE statements *)

Definition with_password (h : string) (u : user_row) : user_row :=
  mk_user (username u) h (role u) (name u) (email u) (dept u) (hod_email u) 0.

Definition with_status (st : string) (r : request_row) : request_row :=
  mk_request (id r) (user_key r) (requester_name r) (department r)
    (approver_email r) (category r) (item r) st (amount r) (initial_cost r)
    (vendor r) (invoice_img r) (sac_note r) (date r).

(** UPDATE requests SET vendor=?, amount=?, initial_cost=?, invoice_img=?,
    status='Pending SS HOD' WHERE id=? *)
Definition with_quote (v : string) (c : Q) (ib : list Byte.byte) (r : request_row) : request_row :=
  mk_request (id r) (user_key r) (requester_name r) (department r)
    (approver_email r) (category r) (item r) "Pending SS HOD" c c
    v (Some ib) (sac_note r) (date r).

(** UPDATE requests SET amount=?, sac_note=?, status='Pending ED' WHERE id=? *)
Definition with_sac (cost : Q) (note : string) (r : request_row) : request_row :=
  mk_request (id r) (user_key r) (requester_name r) (department r)
    (approver_email r) (category r) (item r) "Pending ED" cost (initial_cost r)
    (vendor r) (invoice_img r) note (date r).

Definition with_pay_status (st : string) (p : payment_row) : payment_row :=
  mk_payment (payment_id p) (req_id p) (pay_amount p) st (pay_vendor p).

(** ** SQL statements *)


Inductive stmt :=
| SInsertUser (u : user_row)
| SUpdatePassword (h key : string)
| SInsertRequest (r : request_row)
| SSetStatus (st rid : string)
| SAdminQuote (v : string) (c : Q) (ib : list Byte.byte) (rid : string)
| SSacValidate (cost : Q) (note rid : string)
| SInsertPayment (p : payment_row)
| SMarkPaid (pid : string)
| SInsertAudit (ts user act det : string).

(** The SQL text handed to [c.execute] (the two triple-quoted INSERTs into
    requests are written on one line). [SSetStatus] covers both the literal
    [UPDATE requests SET status='Declined' WHERE id=?] texts and the
    f-string [f"UPDATE requests SET status='{next_status}' WHERE id=?"]. *)
Definition sql_text (q : stmt) : string :=
  match q with
  | SInsertUser _ => "INSERT INTO users VALUES (?,?,?,?,?,?,?,?)"
  | SUpdatePassword _ _ => "UPDATE users SET password = ?, force_reset = 0 WHERE username = ?"
  | SInsertRequest _ => "INSERT INTO requests (id, user_key, requester_name, department, approver_email, category, item, status, amount, initial_cost, vendor, sac_note, date) VALUES (?,?,?,?,?,?,?,?,?,?,?,?,?)"
  | SSetStatus st _ => "UPDATE requests SET status='" ++ st ++ "' WHERE id=?"
  | SAdminQuote _ _ _ _ => "UPDATE requests SET vendor=?, amount=?, initial_cost=?, invoice_img=?, status='Pending SS HOD' WHERE id=?"
  | SSacValidate _ _ _ => "UPDATE requests SET amount=?, sac_note=?, status='Pending ED' WHERE id=?"
  | SInsertPayment _ => "INSERT INTO payments (payment_id, req_id, amount, status, vendor) VALUES (?,?,?,?,?)"
  | SMarkPaid _ => "UPDATE payments SET status='Paid' WHERE payment_id=?"
  | SInsertAudit _ _ _ _ => "INSERT INTO audit (timestamp, user, action, details) VALUES (?,?,?,?)"
  end.


(** Effect of one statement; [None] is the sqlite3.IntegrityError raised
    by an INSERT whose primary key already exists. An UPDATE ... WHERE
    key=? on an absent key changes nothing. *)
Definition exec (s : store) (q : stmt) : option store :=
  match q with
  | SInsertUser u =>
      match users s !! username u with
      | Some _ => None
      | None => Some (set_users s (<[username u := u]> (users s)))
      end
  | SUpdatePassword h k => Some (set_users s (alter (with_password h) k (users s)))
  | SInsertRequest r =>
      match requests s !! id r with
      | Some _ => None
      | None => Some (set_requests s (<[id r := r]> (requests s)))
      end
  | SSetStatus st rid => Some (set_requests s (alter (with_status st) rid (requests s)))
  | SAdminQuote v c ib rid => Some (set_requests s (alter (with_quote v c ib) rid (requests s)))
  | SSacValidate cost note rid => Some (set_requests s (alter (with_sac cost note) rid (requests s)))
  | SInsertPayment p =>
      match payments s !! payment_id p with
      | Some _ => None
      | None => Some (set_payments s (<[payment_id p := p]> (payments s)))
      end
  | SMarkPaid pid => Some (set_payments s (alter (with_pay_status "Paid") pid (payments s)))
  | SInsertAudit ts u a d => Some (set_audit s (audit s ++ [mk_audit ts u a d]))
  end.

(** [run_query] commits after each statement, so the statements before a
    failing one stay applied; the boolean says whether all succeeded. *)
Fixpoint run (s : store) (qs : list stmt) : store * bool :=
  match qs with
  | [] => (s, true)
  | q :: rest =>
      match exec s q with
      | None => (s, false)
      | Some s' => run s' rest
      end
  end.

(** ** The program *)

Section Facility.

(** [hashlib.sha256(str.encode(p)).hexdigest()] and Python's [str.lower]
    are library functions; the development is generic in both. *)
Variable sha256_hex : string -> string.
Variable lower : string -> string.

Definition make_hash (password : string) : string := sha256_hex password.

Definition check_hash (password hashed_text : string) : bool :=
  String.eqb (make_hash password) hashed_text.

(** get_user: SELECT * FROM users WHERE username = ? *)
Definition get_user (s : store) (u : string) : option user_row := users s !! u.

(** *** init_db *)

Definition users_cols : list (string * string) :=
  [("username", "TEXT PRIMARY KEY"); ("password", "TEXT"); ("role", "TEXT");
   ("name", "TEXT"); ("email", "TEXT"); ("dept", "TEXT"); ("hod_email", "TEXT");
   ("force_reset", "INTEGER")].

Definition requests_cols : list (string * string) :=
  [("id", "TEXT PRIMARY KEY"); ("user_key", "TEXT"); ("requester_name", "TEXT");
   ("department", "TEXT"); ("approver_email", "TEXT"); ("category", "TEXT");
   ("item", "TEXT"); ("status", "TEXT"); ("amount", "REAL"); ("initial_cost", "REAL");
   ("vendor", "TEXT"); ("invoice_img", "BLOB"); ("sac_note", "TEXT"); ("date", "TEXT")].

Definition audit_cols : list (string * string) :=
  [("id", "INTEGER PRIMARY KEY AUTOINCREMENT"); ("timestamp", "TEXT"); ("user", "TEXT");
   ("action", "TEXT"); ("details", "TEXT")].

Definition payments_cols : list (string * string) :=
  [("payment_id", "TEXT PRIMARY KEY"); ("req_id", "TEXT"); ("amount", "REAL");
   ("status", "TEXT"); ("vendor", "TEXT")].

(** CREATE TABLE IF NOT EXISTS *)
Definition create_table (nm : string) (cols : list (string * string)) (s : store) : store :=
  match schema s !! nm with
  | Some _ => s
  | None => set_schema s (<[nm := cols]> (schema s))
  end.

Definition super_row : user_row :=
  mk_user "super" (sha256_hex "123") "Superuser" "IT Admin" "it@co.com" "IT" "" 0.

Definition init_db (s0 : store) : store :=
  let s := create_table "payments" payments_cols
             (create_table "audit" audit_cols
               (create_table "requests" requests_cols
                 (create_table "users" users_cols s0))) in
  match users s !! "super" with
  | Some _ => s
  | None => fst (run s [SInsertUser super_row])
  end.

(** *** log_action *)

Definition log_action (ts user act det : string) : stmt := SInsertAudit ts user act det.

(** *** process_cart_submission *)

Record cart_item := mk_item { ctype : string; citem : string; cqty : Z }.

Definition is_stationary (i : cart_item) : bool := String.eqb (ctype i) "Stationary".

(** The routing of the loop over the non-Stationary items. *)
Definition route_status (i : cart_item) : string :=
  let st := "Pending Dept HOD" in
  let st := if String.eqb (ctype i) "Communication" && String.eqb (citem i) "CUG Issue"
            then "Pending Admin" else st in
  if String.eqb (ctype i) "Stationary" then "Pending Admin" else st.

(** [", ".join([f"{i['item']} ({i['qty']})" for i in stationary])] *)
Definition stationary_desc (items : list cart_item) : string :=
  String.concat ", " (map (fun i => citem i ++ " (" ++ pretty (cqty i) ++ ")") items).

(** The row of the requests INSERT: invoice_img is not listed, so NULL. *)
Definition new_request (u : user_row) (rid cat it st vend date_str : string) : request_row :=
  mk_request rid (username u) (name u) (dept u) (hod_email u) cat it st 0 0 vend None "" date_str.

(** The request ids are the successive [str(uuid.uuid4())[:8]] values. *)
Fixpoint others_stmts (u : user_row) (others : list cart_item) (rids : list string)
    (date_str ts : string) : list stmt :=
  match others with
  | [] => []
  | i :: rest =>
      let rid := hd "" rids in
      SInsertRequest (new_request u rid (ctype i) (citem i) (route_status i) "Pending" date_str)
      :: log_action ts (name u) "Request" (ctype i ++ " #" ++ rid)
      :: others_stmts u rest (tl rids) date_str ts
  end.

Definition process_cart_submission (u : user_row) (cart : list cart_item)
    (rids : list string) (date_str ts : string) : list stmt :=
  match cart with
  | [] => []
  | _ =>
      let stationary := List.filter is_stationary cart in
      let others := List.filter (fun i => negb (is_stationary i)) cart in
      match stationary with
      | [] => others_stmts u others rids date_str ts
      | _ =>
          let rid := hd "" rids in
          SInsertRequest (new_request u rid "Stationary" (stationary_desc stationary)
                            "Pending Admin" "Store" date_str)
          :: log_action ts (name u) "Request" ("Stationary #" ++ rid)
          :: others_stmts u others (tl rids) date_str ts
      end
  end.

(** *** Routing of the approver dashboards (main) *)

(** [view_approver_dashboard(role, status_trigger, next_status, label)] is
    called only for these three roles. *)
Definition approver_config (r : string) : option (string * string) :=
  if String.eqb r "SS HOD" then Some ("Pending SS HOD", "Pending SAC")
  else if String.eqb r "ED" then Some ("Pending ED", "Pending GMD")
  else if String.eqb r "GMD" then Some ("Pending GMD", "Approved")
  else None.

(** *** Button presses *)

(** An event is a button press in the view of the logged-in user; the
    Streamlit button fires only when the page rendering it fetched the row,
    so each handler first checks the row against the page's SELECT. *)
Inductive event :=
| EvLogin (u_in p ts : string)
| EvChangePassword (key p1 p2 : string)
| EvCreateUser (u_in p n e r d h : string)
| EvSubmitCart (user : user_row) (cart : list cart_item) (rids : list string) (date_str ts : string)
| EvHodApprove (user : user_row) (rid : string)
| EvHodDecline (user : user_row) (rid : string)
| EvAdminIssue (rid : string)
| EvAdminResolve (rid : string)
| EvAdminSubmit (rid : string) (v : string) (c : Q) (img : option (list Byte.byte))
| EvApprove (r : string) (rid : string) (pid : string)
| EvDecline (r : string) (rid : string)
| EvSacValidate (rid : string) (new_cost : Q) (note : string)
| EvMarkPaid (pid : string).

(** Python's [c > 0] on the cost. *)
Definition Qpos (c : Q) : bool := negb (Qle_bool c 0).

(** Admin: SELECT ... FROM requests WHERE status = 'Pending Admin' *)
Definition admin_row (s : store) (rid : string) : option request_row :=
  match requests s !! rid with
  | Some r => if String.eqb (status r) "Pending Admin" then Some r else None
  | None => None
  end.

Definition event_stmts (s : store) (ev : event) : list stmt :=
  match ev with
  | EvLogin u_in p ts =>
      let u := lower u_in in
      match get_user s u with
      | Some usr =>
          if check_hash p (password usr) then [log_action ts (name usr) "Login" "Success"] else []
      | None => []
      end
  | EvChangePassword key p1 p2 =>
      (* main shows change_password_flow only when force_reset == 1 *)
      match get_user s key with
      | Some cu =>
          if Z.eqb (force_reset cu) 1 then
            if String.eqb p1 p2 && negb (String.eqb p1 "")
            then [SUpdatePassword (make_hash p1) key] else []
          else []
      | None => []
      end
  | EvCreateUser u_in p n e r d h =>
      let u := lower u_in in
      if negb (String.eqb u "") && negb (String.eqb p "")
      then [SInsertUser (mk_user u (make_hash p) r n e d h 1)] else []
  | EvSubmitCart user cart rids date_str ts => process_cart_submission user cart rids date_str ts
  | EvHodApprove user rid =>
      match requests s !! rid with
      | Some r =>
          if String.eqb (status r) "Pending Dept HOD" && String.eqb (approver_email r) (email user)
          then [SSetStatus "Pending Admin" rid] else []
      | None => []
      end
  | EvHodDecline user rid =>
      match requests s !! rid with
      | Some r =>
          if String.eqb (status r) "Pending Dept HOD" && String.eqb (approver_email r) (email user)
          then [SSetStatus "Declined" rid] else []
      | None => []
      end
  | EvAdminIssue rid =>
      match admin_row s rid with
      | Some r =>
          if String.eqb (category r) "Stationary"
          then [SSetStatus "Completed (Fulfilled)" rid] else []
      | None => []
      end
  | EvAdminResolve rid =>
      match admin_row s rid with
      | Some r =>
          if negb (String.eqb (category r) "Stationary") && String.eqb (item r) "CUG Issue"
          then [SSetStatus "Completed (Resolved)" rid] else []
      | None => []
      end
  | EvAdminSubmit rid v c img =>
      match admin_row s rid with
      | Some r =>
          if negb (String.eqb (category r) "Stationary") then
            match img with
            | Some ib =>
                if negb (String.eqb v "") && Qpos c then [SAdminQuote v c ib rid] else []
            | None => []
            end
          else []
      | None => []
      end
  | EvApprove rl rid pid =>
      match approver_config rl with
      | Some (trig, next) =>
          match requests s !! rid with
          | Some r =>
              if String.eqb (status r) trig then
                if String.eqb rl "GMD" then
                  [SSetStatus "Approved" rid;
                   SInsertPayment (mk_payment pid rid (amount r) "Ready for Accounts" (vendor r))]
                else [SSetStatus next rid]
              else []
          | None => []
          end
      | None => []
      end
  | EvDecline rl rid =>
      match approver_config rl with
      | Some (trig, _) =>
          match requests s !! rid with
          | Some r => if String.eqb (status r) trig then [SSetStatus "Declined" rid] else []
          | None => []
          end
      | None => []
      end
  | EvSacValidate rid new_cost note =>
      match requests s !! rid with
      | Some r =>
          if String.eqb (status r) "Pending SAC" then [SSacValidate new_cost note rid] else []
      | None => []
      end
  | EvMarkPaid pid =>
      (* SELECT ... FROM payments p JOIN requests r ON p.req_id = r.id
         WHERE p.status='Ready for Accounts' *)
      match payments s !! pid with
      | Some p =>
          if String.eqb (pay_status p) "Ready for Accounts" then
            match requests s !! req_id p with
            | Some _ => [SMarkPaid pid]
            | None => []
            end
          else []
      | None => []
      end
  end.

Definition step (s : store) (ev : event) : store := fst (run s (event_stmts s ev)).

(** Every script run executes [conn = init_db()] first. *)
Inductive reachable : store -> Prop :=
| reach_init : reachable (init_db empty_store)
| reach_restart s : reachable s -> reachable (init_db s)
| reach_step s ev : reachable s -> reachable (step s ev).

(** login_function: succeeds when get_user finds the lowercased name and
    check_hash accepts the password. *)
Definition login_ok (s : store) (u_in p : string) : bool :=
  match get_user s (lower u_in) with
  | Some usr => check_hash p (password usr)
  | None => false
  end.

End Facility.

(** ** Reading the SQL texts *)

Fixpoint strip_prefix (p s : string) : option string :=
  match p, s with
  | EmptyString, _ => Some s
  | String c p', String d s' => if Ascii.eqb c d then strip_prefix p' s' else None
  | String _ _, EmptyString => None
  end.

Fixpoint take_word (s : string) : string :=
  match s with
  | EmptyString => EmptyString
  | String c rest => if Ascii.eqb c " "%char then EmptyString else String c (take_word rest)
  end.

(** The table a write statement targets: the word after INSERT INTO or UPDATE. *)
Definition sql_target (t : string) : option string :=
  match strip_prefix "INSERT INTO " t with
  | Some rest => Some (take_word rest)
  | None =>
      match strip_prefix "UPDATE " t with
      | Some rest => Some (take_word rest)
      | None => None
      end
  end.


Definition app_tables : list string := ["users"; "requests"; "audit"; "payments"].

Definition app_schema : gmap string (list (string * string)) :=
  <["payments" := payments_cols]> (<["audit" := audit_cols]>
    (<["requests" := requests_cols]> (<["users" := users_cols]> ∅))).

(** The request row a statement UPDATEs (INSERTs excluded). *)
Definition stmt_alters (q : stmt) : option string :=
  match q with
  | SSetStatus _ rid | SAdminQuote _ _ _ rid | SSacValidate _ _ rid => Some rid
  | _ => None
  end.

(** ** Vocabulary of the spec *)

(** The costed approval chain as the spec lists it. *)
Definition chain_next (st : string) : option string :=
  if String.eqb st "Pending Dept HOD" then Some "Pending Admin"
  else if String.eqb st "Pending Admin" then Some "Pending SS HOD"
  else if String.eqb st "Pending SS HOD" then Some "Pending SAC"
  else if String.eqb st "Pending SAC" then Some "Pending ED"
  else if String.eqb st "Pending ED" then Some "Pending GMD"
  else if String.eqb st "Pending GMD" then Some "Approved"
  else None.

(** The approval actions of the chain. *)
Definition is_approval (ev : event) : bool :=
  match ev with
  | EvHodApprove _ _ | EvAdminSubmit _ _ _ _ | EvApprove _ _ _ | EvSacValidate _ _ _ => true
  | _ => false
  end.

(** The stage each role's approval advances, as the spec lists the chain:
    (status it acts on, status it sets). *)
Definition spec_stage (ev : event) : option (string * string) :=
  match ev with
  | EvHodApprove _ _ => Some ("Pending Dept HOD", "Pending Admin")
  | EvAdminSubmit _ _ _ _ => Some ("Pending Admin", "Pending SS HOD")
  | EvApprove rl _ _ =>
      if String.eqb rl "SS HOD" then Some ("Pending SS HOD", "Pending SAC")
      else if String.eqb rl "ED" then Some ("Pending ED", "Pending GMD")
      else if String.eqb rl "GMD" then Some ("Pending GMD", "Approved")
      else None
  | EvSacValidate _ _ _ => Some ("Pending SAC", "Pending ED")
  | _ => None
  end.

(** The form conditions of the source besides the status: the HOD sees only
    rows addressed to their email; the Admin's costed submit needs a
    non-Stationary row, a vendor, a cost > 0 and an invoice. *)
Definition form_gate (ev : event) (r : request_row) : Prop :=
  match ev with
  | EvHodApprove usr _ => approver_email r = email usr
  | EvAdminSubmit _ v c img => category r <> "Stationary" /\ v <> "" /\ (0 < c)%Q /\ img <> None
  | _ => True
  end.

(** The fixed trigger status of each role's request action. *)
Definition role_trigger (ev : event) : option string :=
  match ev with
  | EvHodApprove _ _ | EvHodDecline _ _ => Some "Pending Dept HOD"
  | EvAdminIssue _ | EvAdminResolve _ | EvAdminSubmit _ _ _ _ => Some "Pending Admin"
  | EvApprove r _ _ | EvDecline r _ => option_map fst (approver_config r)
  | EvSacValidate _ _ _ => Some "Pending SAC"
  | _ => None
  end.

Definition ev_rid (ev : event) : option string :=
  match ev with
  | EvHodApprove _ rid | EvHodDecline _ rid | EvAdminIssue rid | EvAdminResolve rid
  | EvAdminSubmit rid _ _ _ | EvApprove _ rid _ | EvDecline _ rid | EvSacValidate rid _ _ => Some rid
  | _ => None
  end.

Definition is_terminal (st : string) : bool :=
  String.eqb st "Declined" || String.eqb st "Completed (Fulfilled)"
  || String.eqb st "Completed (Resolved)" || String.eqb st "Approved".

(** Routing of a new request as the spec states it. *)
Definition spec_route (cat it : string) : string :=
  if String.eqb cat "Stationary" then "Pending Admin"
  else if String.eqb cat "Communication" && String.eqb it "CUG Issue" then "Pending Admin"
  else "Pending Dept HOD".

(** SAC savings report: SELECT date, item, vendor, initial_cost, amount,
    sac_note FROM requests WHERE initial_cost > amount AND status IN
    ('Approved','Paid','Ready for Accounts','Pending ED','Pending GMD'),
    with df['Savings'] = df['Initial'] - df['Final']; one entry per row,
    keyed by the request id. *)
Definition report_status (st : string) : bool :=
  String.eqb st "Approved" || String.eqb st "Paid" || String.eqb st "Ready for Accounts"
  || String.eqb st "Pending ED" || String.eqb st "Pending GMD".

Definition savings_row (r : request_row) : option Q :=
  if negb (Qle_bool (initial_cost r) (amount r)) && report_status (status r)
  then Some (initial_cost r - amount r)%Q else None.

Definition savings_report (s : store) : gmap string Q := omap savings_row (requests s).

(** ** Sessions, cart rows, store invariant, statement shape *)

(** A session of the application: script reruns (each one runs init_db)
    and button presses. *)
Inductive op := OpRerun | OpEvent (ev : event).

Definition apply_op (h l : string -> string) (s : store) (o : op) : store :=
  match o with
  | OpRerun => init_db h s
  | OpEvent ev => step h l s ev
  end.

Definition apply_ops (h l : string -> string) (s : store) (os : list op) : store :=
  fold_left (apply_op h l) os s.

(** The rows the loop over the non-Stationary items inserts. *)
Fixpoint others_rows (u : user_row) (os : list cart_item) (rids : list string)
    (date_str : string) : list request_row :=
  match os with
  | [] => []
  | i :: rest =>
      new_request u (hd "" rids) (ctype i) (citem i) (route_status i) "Pending" date_str
      :: others_rows u rest (tl rids) date_str
  end.

Definition insert_rows (m : gmap string request_row) (rows : list request_row) :=
  fold_left (fun m r => <[id r := r]> m) rows m.

Definition store_ok (s : store) : Prop :=
  schema s = app_schema /\ exists su, users s !! "super" = Some su /\ role su = "Superuser".





(** ** Further views and store relations *)

(** view_staff_portal, History: SELECT date, category, item, status FROM
    requests WHERE user_key = ?  (one entry per row, keyed by id). *)
Definition staff_history (s : store) (uname : string) : gmap string (string * string * string * string) :=
  omap (fun r => if String.eqb (user_key r) uname
                 then Some (date r, category r, item r, status r) else None) (requests s).

(** view_hod_dashboard, Spend: SELECT date, item, vendor, amount FROM
    requests WHERE department=? AND status IN ('Approved','Paid'). *)
Definition hod_spend (s : store) (dept_name : string) : gmap string (string * string * string * Q) :=
  omap (fun r => if String.eqb (department r) dept_name
                    && (String.eqb (status r) "Approved" || String.eqb (status r) "Paid")
                 then Some (date r, item r, vendor r, amount r) else None) (requests s).

(** The columns no UPDATE of the program writes. *)
Definition user_fixed (u : user_row) := (username u, role u, name u, email u, dept u, hod_email u).
Definition req_fixed (r : request_row) :=
  (id r, user_key r, requester_name r, department r, approver_email r, category r, item r, date r).
Definition pay_fixed (p : payment_row) := (payment_id p, req_id p, pay_amount p, pay_vendor p).

(** [s'] extends [s]: audit entries are only appended, and no user,
    request or payment row is deleted or has a fixed column changed. *)
Definition grows (s s' : store) : Prop :=
  (exists au, audit s' = app (audit s) au)
  /\ (forall k u, users s !! k = Some u -> exists u', users s' !! k = Some u' /\ user_fixed u' = user_fixed u)
  /\ (forall k r, requests s !! k = Some r ->
        exists r', requests s' !! k = Some r' /\ req_fixed r' = req_fixed r)
  /\ (forall k p, payments s !! k = Some p ->
        exists p', payments s' !! k = Some p' /\ pay_fixed p' = pay_fixed p).

(** Every status the program ever writes into a request row. *)
Definition known_status (st : string) : bool :=
  String.eqb st "Pending Dept HOD" || String.eqb st "Pending Admin"
  || String.eqb st "Pending SS HOD" || String.eqb st "Pending SAC"
  || String.eqb st "Pending ED" || String.eqb st "Pending GMD" || String.eqb st "Approved"
  || String.eqb st "Declined" || String.eqb st "Completed (Fulfilled)"
  || String.eqb st "Completed (Resolved)".

(** Invariant of the requests and payments tables. *)
Definition tables_inv (s : store) : Prop :=
  (forall k r, requests s !! k = Some r -> known_status (status r) = true)
  /\ (forall k p, payments s !! k = Some p ->
        payment_id p = k
        /\ (pay_status p = "Ready for Accounts" \/ pay_status p = "Paid")
        /\ exists r, requests s !! req_id p = Some r /\ status r = "Approved"
                     /\ pay_amount p = amount r /\ pay_vendor p = vendor r)
  /\ (forall k1 k2 p1 p2, payments s !! k1 = Some p1 -> payments s !! k2 = Some p2 ->
        req_id p1 = req_id p2 -> k1 = k2).

(** ** Sample data *)

Definition hod_user : user_row :=
  mk_user "hod" "h" "Dept HOD" "Hana" "hod@co.com" "Ops" "" 0.
Definition staff_user : user_row :=
  mk_user "ana" "h" "Staff" "Ana" "ana@co.com" "Ops" "hod@co.com" 0.

Definition req0 (rid cat it st : string) : request_row :=
  mk_request rid "ana" "Ana" "Ops" "hod@co.com" cat it st 50 80 "Acme" (Some [Byte.x01]) "" "2026-01-01".

Definition sample_cart : list cart_item :=
  [mk_item "Stationary" "Biro" 2; mk_item "Communication" "CUG Issue" 1;
   mk_item "Facility" "AC Repair" 1; mk_item "Stationary" "A4 Paper" 3].

Definition sample_store : store :=
  mk_store app_schema ∅
    (<["r1" := req0 "r1" "Facility" "AC Repair" "Pending GMD"]>
      (<["r2" := req0 "r2" "Facility" "Door Repair" "Declined"]>
        (<["r3" := req0 "r3" "Facility" "Electrical" "Pending SS HOD"]>
          (<["r4" := req0 "r4" "Facility" "Plumbing" "Pending Admin"]>
            (<["r5" := req0 "r5" "Furniture" "New Chair" "Pending SAC"]> ∅))))) [] ∅.

(** Statements that write a request status only write known statuses. *)
Definition stmt_status_ok (q : stmt) : bool :=
  match q with
  | SSetStatus st _ => known_status st
  | SInsertRequest r => known_status (status r)
  | _ => true
  end.

Definition touches_payments (q : stmt) : bool :=
  match q with
  | SInsertPayment _ | SMarkPaid _ => true
  | _ => false
  end.

(** The fields every row inserted by a cart submission carries. *)
Definition cart_row_ok (u : user_row) (d : string) (r : request_row) : Prop :=
  user_key r = username u /\ requester_name r = name u /\ department r = dept u
  /\ approver_email r = hod_email u /\ date r = d /\ invoice_img r = None /\ sac_note r = ""
  /\ vendor r = (if String.eqb (category r) "Stationary" then "Store" else "Pending").

Definition insert_or_log (P : request_row -> Prop) (q : stmt) : Prop :=
  match q with
  | SInsertRequest r => P r
  | SInsertAudit _ _ _ _ => True
  | _ => False
  end.

(** A session taking one Facility request through the whole chain. *)
Definition demo_ops : list op :=
  [OpEvent (EvSubmitCart staff_user [mk_item "Facility" "AC Repair" 1] ["r1"] "2026-01-02" "t1");
   OpEvent (EvHodApprove hod_user "r1");
   OpRerun;
   OpEvent (EvAdminSubmit "r1" "Acme" 80 (Some [Byte.x01]));
   OpEvent (EvApprove "SS HOD" "r1" "");
   OpEvent (EvSacValidate "r1" 50 "deal");
   OpEvent (EvApprove "ED" "r1" "");
   OpEvent (EvApprove "GMD" "r1" "p1")].

Definition demo_store : store :=
  apply_ops (fun x => x) (fun x => x) (init_db (fun x => x) empty_store) demo_ops.

Definition demo_row : request_row :=
  mk_request "r1" "ana" "Ana" "Ops" "hod@co.com" "Facility" "AC Repair" "Approved" 50 80 "Acme"
    (Some [Byte.x01]) "deal" "2026-01-02".

Definition demo_payment : payment_row := mk_payment "p1" "r1" 50 "Ready for Accounts" "Acme".

(** A store whose user 'ana' still has the temporary password. *)
Definition fresh_user_store : store :=
  mk_store app_schema {[ "ana" := mk_user "ana" "h" "Staff" "Ana" "ana@co.com" "Ops" "hod@co.com" 1 ]}
    ∅ [] ∅.

(** ** Sanity checks on small inputs *)

Example ex_target : sql_target (sql_text (SSetStatus "Declined" "x")) = Some "requests".
Proof. reflexivity. Qed.

Example ex_cart :
  length (process_cart_submission staff_user
    [mk_item "Stationary" "Biro" 2; mk_item "Communication" "CUG Issue" 1;
     mk_item "Stationary" "A4 Paper" 3] ["a"; "b"] "d" "t") = 4.
Proof. reflexivity. Qed.

(** ** Frame lemmas: which statements touch which request row *)

Lemma exec_keeps_request (s s' : store) (q : stmt) (k : string) (r : request_row) :
  requests s !! k = Some r -> stmt_alters q <> Some k -> exec s q = Some s' ->
  requests s' !! k = Some r.
Proof.
  intros Hk Ha He.
  destruct q as [u|h key|r0|st rid|v c ib rid|cost note rid|p|pid|ts u a d];
    simpl in *; try (injection He as <-; simpl; exact Hk).
  - destruct (users s !! username u); [discriminate|]. injection He as <-. exact Hk.
  - destruct (requests s !! id r0) eqn:E; [discriminate|].
    injection He as <-. simpl.
    rewrite lookup_insert_ne; [exact Hk|]. intros Heq. rewrite Heq in E. congruence.
  - injection He as <-. simpl. rewrite lookup_alter_ne; [exact Hk|congruence].
  - injection He as <-. simpl. rewrite lookup_alter_ne; [exact Hk|congruence].
  - injection He as <-. simpl. rewrite lookup_alter_ne; [exact Hk|congruence].
  - destruct (payments s !! payment_id p); [discriminate|]. injection He as <-. exact Hk.
Qed.

Lemma run_keeps_request (qs : list stmt) (s : store) (k : string) (r : request_row) :
  requests s !! k = Some r -> (forall q, In q qs -> stmt_alters q <> Some k) ->
  requests (fst (run s qs)) !! k = Some r.
Proof.
  revert s. induction qs as [|q qs IH]; intros s Hk Hq; simpl; [exact Hk|].
  destruct (exec s q) as [s'|] eqn:E; [|exact Hk].
  apply IH; [|intros q' Hin; apply Hq; right; exact Hin].
  apply (exec_keeps_request s s' q); [exact Hk| apply Hq; left; reflexivity | exact E].
Qed.

Lemma others_stmts_no_alter (u : user_row) (os : list cart_item) (rids : list string)
    (d ts : string) (q : stmt) :
  In q (others_stmts u os rids d ts) -> stmt_alters q = None.
Proof.
  revert rids. induction os as [|i os IH]; intros rids Hin; simpl in Hin; [contradiction|].
  destruct Hin as [<-|[<-|Hin]]; [reflexivity|reflexivity|exact (IH _ Hin)].
Qed.

Lemma cart_no_alter (u : user_row) (cart : list cart_item) (rids : list string)
    (d ts : string) (q : stmt) :
  In q (process_cart_submission u cart rids d ts) -> stmt_alters q = None.
Proof.
  unfold process_cart_submission. destruct cart as [|c0 cart]; [contradiction|].
  destruct (List.filter is_stationary (c0 :: cart)) as [|s0 sts].
  - apply others_stmts_no_alter.
  - intros [<-|[<-|Hin]]; [reflexivity|reflexivity|].
    exact (others_stmts_no_alter _ _ _ _ _ _ Hin).
Qed.

Ltac in_list_cases :=
  match goal with
  | H : False |- _ => destruct H
  | H : _ \/ _ |- _ => destruct H as [H|H]
  | H : _ = ?q |- _ => is_var q; subst q; simpl in *
  end.

(** Every request row a handler UPDATEs was fetched by the handler's page
    with the role's fixed trigger status. *)
Lemma event_alters_trigger (h l : string -> string) (s : store) (ev : event)
    (q : stmt) (k : string) :
  In q (event_stmts h l s ev) -> stmt_alters q = Some k ->
  exists r t, requests s !! k = Some r /\ role_trigger ev = Some t /\ status r = t.
Proof.
  intros Hin Ha.
  destruct ev; simpl in Hin;
    try (exfalso; rewrite (cart_no_alter _ _ _ _ _ _ Hin) in Ha; discriminate);
    unfold admin_row in Hin;
    repeat (case_match; simpl in *; try contradiction);
    repeat in_list_cases; try contradiction; try discriminate;
    injection Ha as <-;
    repeat match goal with
           | H : (_ && _)%bool = true |- _ => apply andb_true_iff in H as [? ?]
           | H : String.eqb _ _ = true |- _ => apply String.eqb_eq in H
           end; subst;
    do 2 eexists; (split; [eassumption|]); (split; [|reflexivity]); simpl in *;
    (match goal with H : approver_config _ = _ |- _ => rewrite H | _ => idtac end);
    simpl in *; first [congruence | (unfold approver_config in *; simpl in *; congruence)].
Qed.

Lemma trigger_not_terminal (ev : event) (t : string) :
  role_trigger ev = Some t -> is_terminal t = false.
Proof.
  destruct ev; simpl; intros Ht; try discriminate;
    try (injection Ht as <-; reflexivity).
  all: unfold approver_config in Ht;
    repeat (case_match; simpl in Ht; try discriminate); injection Ht as <-; reflexivity.
Qed.

Lemma create_table_requests (nm : string) (cols : list (string * string)) (s : store) :
  requests (create_table nm cols s) = requests s.
Proof. unfold create_table. case_match; reflexivity. Qed.

Lemma create_table_users (nm : string) (cols : list (string * string)) (s : store) :
  users (create_table nm cols s) = users s.
Proof. unfold create_table. case_match; reflexivity. Qed.

Lemma init_db_requests (h : string -> string) (s : store) :
  requests (init_db h s) = requests s.
Proof.
  unfold init_db; cbv zeta.
  destruct (users _ !! "super") eqn:E.
  - rewrite !create_table_requests. reflexivity.
  - unfold run, exec, super_row, username. rewrite E. simpl.
    rewrite !create_table_requests. reflexivity.
Qed.

Lemma step_keeps_unaltered (h l : string -> string) (s : store) (ev : event)
    (k : string) (r : request_row) :
  requests s !! k = Some r ->
  (forall r' t, requests s !! k = Some r' -> role_trigger ev = Some t -> status r' <> t) ->
  requests (step h l s ev) !! k = Some r.
Proof.
  intros Hk Hs. unfold step. apply run_keeps_request; [exact Hk|].
  intros q Hin Ha.
  destruct (event_alters_trigger h l s ev q k Hin Ha) as (r' & t & Hr' & Ht & Hst).
  exact (Hs r' t Hr' Ht Hst).
Qed.

(** ** Claims *)

(** C5: every request action of a role (approve, decline, validate, issue,
    resolve, costed submit) has a fixed trigger status; a request whose
    current status differs from it is left unchanged by the action. *)
Theorem C5_actions_keyed_by_trigger (h l : string -> string) (s : store) (ev : event)
    (t k : string) (r : request_row) :
  role_trigger ev = Some t -> requests s !! k = Some r -> status r <> t ->
  requests (step h l s ev) !! k = Some r.
Proof.
  intros Ht Hk Hne. apply step_keeps_unaltered; [exact Hk|].
  intros r' t' Hr' Ht'. rewrite Hk in Hr'. injection Hr' as <-.
  rewrite Ht in Ht'. injection Ht' as <-. exact Hne.
Qed.

Lemma C5_actions_keyed_by_trigger_witness :
  role_trigger (EvDecline "GMD" "r2") = Some "Pending GMD" /\
  requests sample_store !! "r2" = Some (req0 "r2" "Facility" "Door Repair" "Declined") /\
  requests (step (fun x => x) (fun x => x) sample_store (EvDecline "GMD" "r2")) !! "r2"
    = Some (req0 "r2" "Facility" "Door Repair" "Declined").
Proof.
  split; [reflexivity|]. split; [reflexivity|].
  apply (C5_actions_keyed_by_trigger (fun x => x) (fun x => x) sample_store
           (EvDecline "GMD" "r2") "Pending GMD"); [reflexivity | reflexivity | discriminate].
Defined.

(** C10: a request in a terminal status ('Declined', 'Completed
    (Fulfilled)', 'Completed (Resolved)', 'Approved') is never changed again
    by any sequence of script reruns and button presses. *)
Theorem C10_terminal_absorbing (h l : string -> string) (os : list op) (s : store)
    (k : string) (r : request_row) :
  requests s !! k = Some r -> is_terminal (status r) = true ->
  requests (apply_ops h l s os) !! k = Some r.
Proof.
  intros Hk Ht. unfold apply_ops. revert s Hk.
  induction os as [|o os IH]; intros s Hk; simpl; [exact Hk|].
  apply IH. destruct o as [|ev]; simpl.
  - rewrite init_db_requests. exact Hk.
  - apply step_keeps_unaltered; [exact Hk|].
    intros r' t Hr' Htr Hst. rewrite Hk in Hr'. injection Hr' as <-.
    rewrite Hst in Ht. rewrite (trigger_not_terminal ev t Htr) in Ht. discriminate.
Qed.

Lemma C10_terminal_absorbing_witness :
  requests sample_store !! "r2" = Some (req0 "r2" "Facility" "Door Repair" "Declined") /\
  is_terminal "Declined" = true /\
  requests (apply_ops (fun x => x) (fun x => x) sample_store
              [OpEvent (EvApprove "GMD" "r2" "p"); OpRerun; OpEvent (EvHodApprove hod_user "r2")])
    !! "r2" = Some (req0 "r2" "Facility" "Door Repair" "Declined").
Proof.
  split; [reflexivity|]. split; [reflexivity|].
  apply (C10_terminal_absorbing (fun x => x) (fun x => x)); reflexivity.
Defined.

Lemma lookup_alter_cases (f : request_row -> request_row) (rid k : string)
    (m : gmap string request_row) (r r' : request_row) :
  m !! k = Some r -> alter f rid m !! k = Some r' -> (k = rid /\ r' = f r) \/ r' = r.
Proof.
  intros Hk Ha. destruct (decide (k = rid)) as [->|Hne].
  - rewrite lookup_alter_eq, Hk in Ha. simpl in Ha. injection Ha as <-. left. split; reflexivity.
  - rewrite lookup_alter_ne in Ha by congruence. right. congruence.
Qed.

Lemma approver_config_cases (rl t n : string) :
  approver_config rl = Some (t, n) ->
  (rl = "SS HOD" /\ t = "Pending SS HOD" /\ n = "Pending SAC")
  \/ (rl = "ED" /\ t = "Pending ED" /\ n = "Pending GMD")
  \/ (rl = "GMD" /\ t = "Pending GMD" /\ n = "Approved").
Proof.
  unfold approver_config. intros H.
  destruct (String.eqb_spec rl "SS HOD"); [injection H as <- <-; left; auto|].
  destruct (String.eqb_spec rl "ED"); [injection H as <- <-; right; left; auto|].
  destruct (String.eqb_spec rl "GMD"); [injection H as <- <-; right; right; auto|].
  discriminate.
Qed.

Ltac eqb_facts :=
  repeat match goal with
         | H : (_ && _)%bool = true |- _ => apply andb_true_iff in H as [? ?]
         | H : String.eqb _ _ = true |- _ => apply String.eqb_eq in H
         | H : approver_config _ = Some (_, _) |- _ =>
             apply approver_config_cases in H as [(? & ? & ?)|[(? & ? & ?)|(? & ? & ?)]]
         end; subst.

(** Each approval action leaves a request's status as it was or moves it
    one step along [chain_next]. *)
Lemma approval_one_step (h l : string -> string) (s : store) (ev : event)
    (k : string) (r r' : request_row) :
  is_approval ev = true -> requests s !! k = Some r ->
  requests (step h l s ev) !! k = Some r' ->
  status r' = status r \/ chain_next (status r) = Some (status r').
Proof.
  intros Hap Hk Hk'. unfold step, event_stmts in Hk'.
  destruct ev; try discriminate; unfold admin_row in Hk';
    repeat (case_match; simpl in Hk'; try discriminate;
            try match goal with H : Some _ = Some ?x |- _ => is_var x; injection H as <- end);
    simpl in Hk';
    try first [ (rewrite Hk in Hk'; injection Hk' as <-; left; reflexivity)
          | (destruct (lookup_alter_cases _ _ _ _ _ _ Hk Hk') as [[-> ->] | ->];
             [| left; reflexivity]) ].
  all: right;
    try match goal with H : _ = Some ?x |- _ =>
      tryif constr_eq x r then fail else (assert (x = r) as -> by congruence) end;
    eqb_facts; simpl in *; try discriminate;
    repeat match goal with H : status _ = _ |- _ => rewrite H end; reflexivity.
Qed.

(** ** Cart submission *)

Lemma others_run (u : user_row) (os : list cart_item) (rids : list string) (d ts : string)
    (s : store) :
  NoDup rids -> (forall k, In k rids -> requests s !! k = None) -> length os <= length rids ->
  requests (fst (run s (others_stmts u os rids d ts))) = insert_rows (requests s) (others_rows u os rids d).
Proof.
  revert rids s. induction os as [|i os IH]; intros rids s Hnd Hfr Hlen; [reflexivity|].
  destruct rids as [|k rids]; simpl in Hlen; [lia|].
  simpl. rewrite (Hfr k (or_introl eq_refl)). simpl.
  apply NoDup_cons in Hnd as [Hk Hnd].
  rewrite (IH rids); [reflexivity | exact Hnd | | lia].
  intros k' Hin. simpl. rewrite lookup_insert_ne; [apply Hfr; right; exact Hin|].
  intros ->. apply Hk. apply list_elem_of_In. exact Hin.
Qed.

Lemma others_rows_ids (u : user_row) (os : list cart_item) (rids : list string) (d : string) :
  length os <= length rids ->
  map id (others_rows u os rids d) = firstn (length (others_rows u os rids d)) rids.
Proof.
  revert rids. induction os as [|i os IH]; intros rids Hlen; [reflexivity|].
  destruct rids as [|k rids]; simpl in *; [lia|]. f_equal. apply IH. lia.
Qed.

Lemma others_rows_length (u : user_row) (os : list cart_item) (rids : list string) (d : string) :
  length (others_rows u os rids d) = length os.
Proof. revert rids. induction os; intros; simpl; [reflexivity|]. f_equal. apply IHos. Qed.

Lemma others_rows_items (u : user_row) (os : list cart_item) (rids : list string) (d : string) :
  map (fun r => (category r, item r)) (others_rows u os rids d) = map (fun i => (ctype i, citem i)) os.
Proof. revert rids. induction os; intros; simpl; [reflexivity|]. f_equal. apply IHos. Qed.

Lemma others_rows_routed (u : user_row) (os : list cart_item) (rids : list string) (d : string) :
  (forall i, In i os -> is_stationary i = false) ->
  Forall (fun r => status r = spec_route (category r) (item r) /\ amount r = 0%Q /\ initial_cost r = 0%Q)
    (others_rows u os rids d).
Proof.
  revert rids. induction os as [|i os IH]; intros rids Hst; simpl; constructor.
  - simpl. split; [|split; reflexivity].
    pose proof (Hst i (or_introl eq_refl)) as Hi. unfold is_stationary in Hi.
    unfold route_status, spec_route. rewrite Hi. reflexivity.
  - apply IH. intros j Hj. apply Hst. right. exact Hj.
Qed.

Lemma others_not_stationary (cart : list cart_item) (i : cart_item) :
  In i (List.filter (fun i => negb (is_stationary i)) cart) -> is_stationary i = false.
Proof. intros Hin. apply filter_In in Hin as [_ H]. destruct (is_stationary i); [discriminate|reflexivity]. Qed.

(** C2: for a non-empty cart (and fresh request ids from uuid4), the rows
    inserted into requests are: one merged row for all Stationary items,
    then one row per other item, in cart order; each row's status is
    'Pending Admin' for the Stationary row and for a Communication
    'CUG Issue', 'Pending Dept HOD' otherwise, and every row starts with
    amount 0 and initial_cost 0. *)
Theorem C2_cart_routing (h l : string -> string) (s : store) (u : user_row)
    (cart : list cart_item) (rids : list string) (d ts : string) :
  cart <> [] -> NoDup rids -> (forall k, In k rids -> requests s !! k = None) ->
  length cart <= length rids ->
  exists L : list request_row,
    requests (step h l s (EvSubmitCart u cart rids d ts)) = insert_rows (requests s) L
    /\ map id L = firstn (length L) rids
    /\ map (fun r => (category r, item r)) L =
         app match List.filter is_stationary cart with
             | [] => []
             | sts => [("Stationary", stationary_desc sts)]
             end
           (map (fun i => (ctype i, citem i)) (List.filter (fun i => negb (is_stationary i)) cart))
    /\ Forall (fun r => status r = spec_route (category r) (item r)
                        /\ amount r = 0%Q /\ initial_cost r = 0%Q) L.
Proof.
  intros Hne Hnd Hfr Hlen.
  pose proof (List.filter_length is_stationary cart) as Hfl.
  unfold step, event_stmts, process_cart_submission.
  destruct cart as [|c0 cart']; [contradiction|]. set (cart := c0 :: cart') in *.
  set (others := List.filter (fun i => negb (is_stationary i)) cart) in *.
  destruct (List.filter is_stationary cart) as [|x xs] eqn:Est.
  - exists (others_rows u others rids d).
    rewrite others_run by (auto; simpl in *; lia).
    split; [reflexivity|]. split; [apply others_rows_ids; simpl in *; lia|].
    split; [apply others_rows_items|].
    apply others_rows_routed. intros i Hi. exact (others_not_stationary cart i Hi).
  - destruct rids as [|k rids']; [simpl in *; lia|].
    apply NoDup_cons in Hnd as [Hk Hnd'].
    exists (new_request u k "Stationary" (stationary_desc (x :: xs)) "Pending Admin" "Store" d
            :: others_rows u others rids' d).
    simpl. rewrite (Hfr k (or_introl eq_refl)). simpl.
    rewrite others_run; [| exact Hnd' | | simpl in *; lia].
    + split; [reflexivity|]. split; [f_equal; apply others_rows_ids; simpl in *; lia|].
      split; [f_equal; apply others_rows_items|].
      constructor; [simpl; repeat split|].
      apply others_rows_routed. intros i Hi. exact (others_not_stationary cart i Hi).
    + intros k' Hin. simpl. rewrite lookup_insert_ne; [apply Hfr; right; exact Hin|].
      intros ->. apply Hk. apply list_elem_of_In. exact Hin.
Qed.

Lemma C2_cart_routing_witness :
  exists L : list request_row,
    requests (step (fun x => x) (fun x => x) sample_store
                (EvSubmitCart staff_user sample_cart ["a"; "b"; "c"; "d"] "2026-01-02" "t"))
      = insert_rows (requests sample_store) L
    /\ map id L = firstn (length L) ["a"; "b"; "c"; "d"]
    /\ map (fun r => (category r, item r)) L =
         app match List.filter is_stationary sample_cart with
             | [] => []
             | sts => [("Stationary", stationary_desc sts)]
             end
           (map (fun i => (ctype i, citem i))
              (List.filter (fun i => negb (is_stationary i)) sample_cart))
    /\ Forall (fun r => status r = spec_route (category r) (item r)
                        /\ amount r = 0%Q /\ initial_cost r = 0%Q) L.
Proof.
  apply (C2_cart_routing (fun x => x) (fun x => x)).
  - discriminate.
  - repeat constructor; simpl; set_solver.
  - intros k Hin. simpl in Hin. destruct Hin as [<-|[<-|[<-|[<-|[]]]]]; reflexivity.
  - simpl. lia.
Defined.

Lemma alter_existing {A} (f : A -> A) (k : string) (m : gmap string A) (x : A) :
  m !! k = Some x -> alter f k m = <[k := f x]> m.
Proof.
  intros Hk. apply map_eq. intros j. destruct (decide (j = k)) as [->|Hne].
  - rewrite lookup_alter_eq, lookup_insert_eq, Hk. reflexivity.
  - rewrite lookup_alter_ne, lookup_insert_ne by congruence. reflexivity.
Qed.

(** C3: the GMD 'Approve' on a 'Pending GMD' request sets it to
    'Approved' and inserts exactly one payments row (fresh payment id)
    carrying the request's id, amount and vendor with status 'Ready for
    Accounts'; the Accounts 'Mark Paid' on that payment then sets its
    status to 'Paid' and leaves the requests table unchanged. The payment
    id, str(uuid4())[:8], is assumed not to collide with an existing one. *)
Theorem C3_gmd_approval_pays (h l : string -> string) (s : store) (rid pid : string)
    (r : request_row) :
  requests s !! rid = Some r -> status r = "Pending GMD" -> payments s !! pid = None ->
  let s1 := step h l s (EvApprove "GMD" rid pid) in
  requests s1 = <[rid := with_status "Approved" r]> (requests s)
  /\ payments s1 = <[pid := mk_payment pid rid (amount r) "Ready for Accounts" (vendor r)]> (payments s)
  /\ users s1 = users s /\ audit s1 = audit s
  /\ let s2 := step h l s1 (EvMarkPaid pid) in
     payments s2 = <[pid := mk_payment pid rid (amount r) "Paid" (vendor r)]> (payments s)
     /\ requests s2 = requests s1 /\ users s2 = users s1 /\ audit s2 = audit s1.
Proof.
  intros Hr Hst Hp s1.
  assert (Hs1 : s1 = set_payments
                       (set_requests s (<[rid := with_status "Approved" r]> (requests s)))
                       (<[pid := mk_payment pid rid (amount r) "Ready for Accounts" (vendor r)]>
                          (payments s))).
  { unfold s1, step, event_stmts. rewrite Hr. cbn [approver_config].
    rewrite Hst. cbn. rewrite Hp. cbn. rewrite (alter_existing _ _ _ _ Hr). reflexivity. }
  rewrite Hs1. clear s1 Hs1.
  split; [reflexivity|]. split; [reflexivity|]. split; [reflexivity|]. split; [reflexivity|].
  unfold step, event_stmts. cbn [payments set_payments requests set_requests].
  rewrite lookup_insert_eq. cbn. rewrite lookup_insert_eq. cbn.
  rewrite (alter_existing _ _ _ _ (lookup_insert_eq _ _ _)). rewrite insert_insert_eq.
  repeat split.
Qed.

Lemma C3_gmd_approval_pays_witness :
  requests sample_store !! "r1" = Some (req0 "r1" "Facility" "AC Repair" "Pending GMD") /\
  payments (step (fun x => x) (fun x => x)
              (step (fun x => x) (fun x => x) sample_store (EvApprove "GMD" "r1" "p1"))
              (EvMarkPaid "p1"))
    = <["p1" := mk_payment "p1" "r1" 50 "Paid" "Acme"]> (payments sample_store).
Proof.
  split; [reflexivity|].
  destruct (C3_gmd_approval_pays (fun x => x) (fun x => x) sample_store "r1" "p1"
              (req0 "r1" "Facility" "AC Repair" "Pending GMD")) as (_ & _ & _ & _ & H & _);
    [reflexivity | reflexivity | reflexivity |].
  exact H.
Defined.

(** ** Admin costed submission *)

Lemma Qpos_spec (c : Q) : Qpos c = true <-> (0 < c)%Q.
Proof.
  unfold Qpos. rewrite negb_true_iff. split.
  - intros H. apply Qnot_le_lt. intros Hle. apply Qle_bool_iff in Hle. congruence.
  - intros H. destruct (Qle_bool c 0) eqn:E; [|reflexivity].
    apply Qle_bool_iff in E. exfalso. apply (Qlt_not_le _ _ H E).
Qed.

(** C6: on a 'Pending Admin' request that is not Stationary, the Admin's
    form submission stores vendor, amount, initial_cost, invoice_img and
    sets 'Pending SS HOD' exactly when the vendor is non-empty, the cost is
    > 0 and an invoice was uploaded; otherwise the store is unchanged. *)
Theorem C6_admin_submit_gated (h l : string -> string) (s : store) (rid v : string) (c : Q)
    (img : option (list Byte.byte)) (r : request_row) :
  requests s !! rid = Some r -> status r = "Pending Admin" -> category r <> "Stationary" ->
  (forall ib, v <> "" -> (0 < c)%Q -> img = Some ib ->
     step h l s (EvAdminSubmit rid v c img)
       = set_requests s (<[rid := with_quote v c ib r]> (requests s)))
  /\ (~ (v <> "" /\ (0 < c)%Q /\ img <> None) -> step h l s (EvAdminSubmit rid v c img) = s).
Proof.
  intros Hr Hst Hcat.
  assert (Hev : event_stmts h l s (EvAdminSubmit rid v c img) =
                match img with
                | Some ib => if negb (String.eqb v "") && Qpos c then [SAdminQuote v c ib rid] else []
                | None => []
                end).
  { unfold event_stmts, admin_row. rewrite Hr, Hst. cbn.
    destruct (String.eqb_spec (category r) "Stationary"); [contradiction|reflexivity]. }
  unfold step. rewrite Hev. split.
  - intros ib Hv Hc ->.
    destruct (String.eqb_spec v "") as [|_]; [contradiction|].
    apply Qpos_spec in Hc. rewrite Hc. simpl.
    rewrite (alter_existing _ _ _ _ Hr). reflexivity.
  - intros Hn. destruct img as [ib|]; [|reflexivity].
    destruct (String.eqb_spec v "") as [|Hv]; [reflexivity|].
    destruct (Qpos c) eqn:Hc; [|reflexivity].
    exfalso. apply Hn. apply Qpos_spec in Hc. split; [exact Hv|]. split; [exact Hc|discriminate].
Qed.

Lemma C6_admin_submit_gated_witness :
  step (fun x => x) (fun x => x) sample_store (EvAdminSubmit "r4" "" 5 (Some [Byte.x02]))
    = sample_store.
Proof.
  destruct (C6_admin_submit_gated (fun x => x) (fun x => x) sample_store "r4" "" 5
              (Some [Byte.x02]) (req0 "r4" "Facility" "Plumbing" "Pending Admin"))
    as [_ H]; [reflexivity | reflexivity | discriminate |].
  apply H. intros (Hv & _). apply Hv. reflexivity.
Defined.

(** ** SAC validation and the savings report *)

(** C9: SAC 'Validate' on a 'Pending SAC' request rewrites only amount,
    sac_note and status (now 'Pending ED'); initial_cost and every other
    column and table are kept, so the request's savings-report entry, when
    it is reported, is its initial_cost minus the negotiated amount, and
    every report entry is initial_cost - amount of its row. *)
Theorem C9_sac_validate_frame (h l : string -> string) (s : store) (rid note : string)
    (cost : Q) (r : request_row) :
  requests s !! rid = Some r -> status r = "Pending SAC" ->
  let s' := step h l s (EvSacValidate rid cost note) in
  s' = set_requests s (<[rid := mk_request (id r) (user_key r) (requester_name r) (department r)
                                  (approver_email r) (category r) (item r) "Pending ED" cost
                                  (initial_cost r) (vendor r) (invoice_img r) note (date r)]>
                         (requests s))
  /\ savings_report s' !! rid =
       (if negb (Qle_bool (initial_cost r) cost) then Some (initial_cost r - cost)%Q else None)
  /\ (forall k q, savings_report s' !! k = Some q ->
        exists r0, requests s' !! k = Some r0 /\ q = (initial_cost r0 - amount r0)%Q).
Proof.
  intros Hr Hst s'.
  assert (Hs' : s' = set_requests s (<[rid := with_sac cost note r]> (requests s))).
  { unfold s', step, event_stmts. rewrite Hr, Hst. cbn.
    rewrite (alter_existing _ _ _ _ Hr). reflexivity. }
  split; [exact Hs'|]. split.
  - rewrite Hs'. unfold savings_report. rewrite lookup_omap. cbn.
    rewrite lookup_insert_eq. cbn. unfold savings_row. cbn.
    rewrite andb_true_r. reflexivity.
  - intros k q Hq. unfold savings_report in Hq. rewrite lookup_omap in Hq.
    destruct (requests s' !! k) as [r0|] eqn:E; [|discriminate].
    exists r0. split; [reflexivity|]. cbn in Hq. unfold savings_row in Hq.
    destruct (_ && _)%bool; [|discriminate]. injection Hq as <-. reflexivity.
Qed.

Lemma C9_sac_validate_frame_witness :
  savings_report (step (fun x => x) (fun x => x) sample_store (EvSacValidate "r5" 30 "deal"))
    !! "r5" = Some (80 - 30)%Q.
Proof.
  destruct (C9_sac_validate_frame (fun x => x) (fun x => x) sample_store "r5" "deal" 30
              (req0 "r5" "Furniture" "New Chair" "Pending SAC")) as (_ & H & _);
    [reflexivity | reflexivity |].
  exact H.
Defined.

(** ** Passwords and login *)

(** C8: check_hash accepts make_hash p for p, accepts h only if h is the
    digest of p, and login (on the lowercased name) succeeds, i.e. logs its
    'Login' audit entry, exactly when the stored hash equals the digest of
    the supplied password. *)
Theorem C8_hash_roundtrip_login (h l : string -> string) :
  (forall p, check_hash h p (make_hash h p) = true)
  /\ (forall p hh, check_hash h p hh = true -> hh = h p)
  /\ (forall s u p, login_ok h l s u p = true <->
        exists usr, users s !! l u = Some usr /\ password usr = h p)
  /\ (forall s u p ts, event_stmts h l s (EvLogin u p ts) <> [] <-> login_ok h l s u p = true).
Proof.
  split; [|split; [|split]].
  - intros p. unfold check_hash. apply String.eqb_refl.
  - intros p hh H. unfold check_hash, make_hash in H. apply String.eqb_eq in H. congruence.
  - intros s u p. unfold login_ok, get_user, check_hash, make_hash.
    destruct (users s !! l u) as [usr|]; split.
    + intros H. apply String.eqb_eq in H. exists usr. split; [reflexivity|congruence].
    + intros (usr' & H1 & H2). injection H1 as <-. apply String.eqb_eq. congruence.
    + discriminate.
    + intros (? & H1 & _). discriminate.
  - intros s u p ts. unfold event_stmts, login_ok.
    destruct (get_user s (l u)); [|split; [intros H; contradiction|discriminate]].
    destruct (check_hash h p (password u0)); split; try discriminate; try contradiction; auto.
Qed.

(** ** The store's tables *)

Lemma sql_target_app_tables (q : stmt) :
  exists t, sql_target (sql_text q) = Some t /\ In t app_tables.
Proof.
  destruct q; simpl; eexists; (split; [reflexivity|]); simpl; tauto.
Qed.

Lemma exec_store_ok (s s' : store) (q : stmt) :
  store_ok s -> exec s q = Some s' -> store_ok s'.
Proof.
  intros [Hsc (su & Hsu & Hrole)] He.
  destruct q; simpl in He;
    try (injection He as <-; split; [exact Hsc|exists su; split; assumption]).
  - destruct (users s !! username u) eqn:E; [discriminate|]. injection He as <-.
    split; [exact Hsc|]. exists su. simpl. split; [|exact Hrole].
    rewrite lookup_insert_ne; [exact Hsu|]. intros Heq. rewrite Heq in E. congruence.
  - injection He as <-. split; [exact Hsc|]. simpl.
    destruct (decide (key = "super")) as [->|Hne].
    + exists (with_password h su). rewrite lookup_alter_eq, Hsu. split; [reflexivity|exact Hrole].
    + exists su. rewrite lookup_alter_ne by congruence. split; assumption.
  - destruct (requests s !! id r); [discriminate|]. injection He as <-.
    split; [exact Hsc|exists su; split; assumption].
  - destruct (payments s !! payment_id p); [discriminate|]. injection He as <-.
    split; [exact Hsc|exists su; split; assumption].
Qed.

Lemma run_store_ok (qs : list stmt) (s : store) : store_ok s -> store_ok (fst (run s qs)).
Proof.
  revert s. induction qs as [|q qs IH]; intros s Hs; simpl; [exact Hs|].
  destruct (exec s q) as [s'|] eqn:E; [|exact Hs].
  apply IH. exact (exec_store_ok s s' q Hs E).
Qed.

Lemma init_db_ok_id (h : string -> string) (s : store) : store_ok s -> init_db h s = s.
Proof.
  intros [Hsc (su & Hsu & _)].
  assert (Hp : forall nm cols c, schema s !! nm = Some c -> create_table nm cols s = s).
  { intros nm cols c Hc. unfold create_table. rewrite Hc. reflexivity. }
  unfold init_db.
  rewrite (Hp "users" users_cols users_cols) by (rewrite Hsc; reflexivity).
  rewrite (Hp "requests" requests_cols requests_cols) by (rewrite Hsc; reflexivity).
  rewrite (Hp "audit" audit_cols audit_cols) by (rewrite Hsc; reflexivity).
  rewrite (Hp "payments" payments_cols payments_cols) by (rewrite Hsc; reflexivity).
  cbv zeta. rewrite Hsu. reflexivity.
Qed.

Lemma init_db_empty_ok (h : string -> string) : store_ok (init_db h empty_store).
Proof.
  split; [reflexivity|]. exists (super_row h). split; reflexivity.
Qed.

Lemma reachable_ok (h l : string -> string) (s : store) : reachable h l s -> store_ok s.
Proof.
  induction 1 as [|s _ IH|s ev _ IH].
  - apply init_db_empty_ok.
  - rewrite init_db_ok_id; exact IH.
  - apply run_store_ok. exact IH.
Qed.

(** C7: on the first run (empty database) and on every later run of the
    script, after init_db the schema is exactly the four tables users,
    requests, audit and payments with their declared columns, the users
    table holds a 'super' row with role 'Superuser', and every SQL write of
    the program (INSERT INTO / UPDATE) targets one of these four tables.
    (SQLite's own bookkeeping table for AUTOINCREMENT is not an
    application table and is not modelled.) *)
Theorem C7_store_schema (h l : string -> string) (s : store) :
  s = empty_store \/ reachable h l s ->
  schema (init_db h s) = app_schema
  /\ app_schema = <["payments" := payments_cols]> (<["audit" := audit_cols]>
                    (<["requests" := requests_cols]> (<["users" := users_cols]> ∅)))
  /\ (exists su, users (init_db h s) !! "super" = Some su /\ role su = "Superuser")
  /\ (forall q : stmt, exists t, sql_target (sql_text q) = Some t /\ In t app_tables).
Proof.
  intros Hs.
  assert (Hok : store_ok (init_db h s)).
  { destruct Hs as [->|Hr]; [apply init_db_empty_ok|].
    apply (reachable_ok h l). apply reach_restart. exact Hr. }
  destruct Hok as [Hsc Hsu].
  split; [exact Hsc|]. split; [reflexivity|]. split; [exact Hsu|].
  apply sql_target_app_tables.
Qed.

Lemma C7_store_schema_witness :
  schema (init_db (fun x => x) empty_store) = app_schema.
Proof.
  destruct (C7_store_schema (fun x => x) (fun x => x) empty_store) as [H _];
    [left; reflexivity | exact H].
Defined.

(** ** Parameter binding of the role actions *)




(** ** Further properties of the program *)

Lemma grows_refl (s : store) : grows s s.
Proof.
  split; [exists []; rewrite app_nil_r; reflexivity|].
  split; [intros k u H; exists u; split; [exact H|reflexivity]|].
  split; [intros k r H; exists r; split; [exact H|reflexivity]|].
  intros k p H; exists p; split; [exact H|reflexivity].
Qed.

Lemma grows_trans (s1 s2 s3 : store) : grows s1 s2 -> grows s2 s3 -> grows s1 s3.
Proof.
  intros (Ha1 & Hu1 & Hr1 & Hp1) (Ha2 & Hu2 & Hr2 & Hp2). split; [|split; [|split]].
  - destruct Ha1 as [a1 E1], Ha2 as [a2 E2]. exists (app a1 a2). rewrite E2, E1, app_assoc. reflexivity.
  - intros k u H. destruct (Hu1 k u H) as (u1 & H1 & F1). destruct (Hu2 k u1 H1) as (u2 & H2 & F2).
    exists u2. split; [exact H2|congruence].
  - intros k r H. destruct (Hr1 k r H) as (r1 & H1 & F1). destruct (Hr2 k r1 H1) as (r2 & H2 & F2).
    exists r2. split; [exact H2|congruence].
  - intros k p H. destruct (Hp1 k p H) as (p1 & H1 & F1). destruct (Hp2 k p1 H1) as (p2 & H2 & F2).
    exists p2. split; [exact H2|congruence].
Qed.

Lemma grows_alter_requests (s : store) (f : request_row -> request_row) (rid : string) :
  (forall r, req_fixed (f r) = req_fixed r) -> grows s (set_requests s (alter f rid (requests s))).
Proof.
  intros Hf. split; [exists []; rewrite app_nil_r; reflexivity|].
  split; [intros k u H; exists u; split; [exact H|reflexivity]|].
  split; [|intros k p H; exists p; split; [exact H|reflexivity]].
  intros k r H. simpl. destruct (decide (k = rid)) as [->|Hne].
  - exists (f r). rewrite lookup_alter_eq, H. split; [reflexivity|apply Hf].
  - exists r. rewrite lookup_alter_ne by congruence. split; [exact H|reflexivity].
Qed.

Lemma exec_grows (s s' : store) (q : stmt) : exec s q = Some s' -> grows s s'.
Proof.
  intros He. destruct q; simpl in He.
  - destruct (users s !! username u) eqn:E; [discriminate|]. injection He as <-.
    pose proof (grows_refl s) as (Ha & Hu & Hr & Hp).
    split; [exact Ha|]. split; [|split; [exact Hr|exact Hp]].
    intros k u0 H. exists u0. simpl. split; [|reflexivity].
    rewrite lookup_insert_ne; [exact H|]. intros Heq. rewrite Heq in E. congruence.
  - injection He as <-. pose proof (grows_refl s) as (Ha & Hu & Hr & Hp).
    split; [exact Ha|]. split; [|split; [exact Hr|exact Hp]].
    intros k u H. simpl. destruct (decide (k = key)) as [->|Hne].
    + exists (with_password h u). rewrite lookup_alter_eq, H. split; reflexivity.
    + exists u. rewrite lookup_alter_ne by congruence. split; [exact H|reflexivity].
  - destruct (requests s !! id r) eqn:E; [discriminate|]. injection He as <-.
    pose proof (grows_refl s) as (Ha & Hu & Hr & Hp).
    split; [exact Ha|]. split; [exact Hu|]. split; [|exact Hp].
    intros k r0 H. exists r0. simpl. split; [|reflexivity].
    rewrite lookup_insert_ne; [exact H|]. intros Heq. rewrite Heq in E. congruence.
  - injection He as <-. apply grows_alter_requests. reflexivity.
  - injection He as <-. apply grows_alter_requests. reflexivity.
  - injection He as <-. apply grows_alter_requests. reflexivity.
  - destruct (payments s !! payment_id p) eqn:E; [discriminate|]. injection He as <-.
    pose proof (grows_refl s) as (Ha & Hu & Hr & Hp).
    split; [exact Ha|]. split; [exact Hu|]. split; [exact Hr|].
    intros k p0 H. exists p0. simpl. split; [|reflexivity].
    rewrite lookup_insert_ne; [exact H|]. intros Heq. rewrite Heq in E. congruence.
  - injection He as <-. pose proof (grows_refl s) as (Ha & Hu & Hr & Hp).
    split; [exact Ha|]. split; [exact Hu|]. split; [exact Hr|].
    intros k p H. simpl. destruct (decide (k = pid)) as [->|Hne].
    + exists (with_pay_status "Paid" p). rewrite lookup_alter_eq, H. split; reflexivity.
    + exists p. rewrite lookup_alter_ne by congruence. split; [exact H|reflexivity].
  - injection He as <-. pose proof (grows_refl s) as (_ & Hu & Hr & Hp).
    split; [exists [mk_audit ts user act det]; reflexivity|]. split; [exact Hu|]. split; assumption.
Qed.

Lemma run_grows (qs : list stmt) (s : store) : grows s (fst (run s qs)).
Proof.
  revert s. induction qs as [|q qs IH]; intros s; simpl; [apply grows_refl|].
  destruct (exec s q) as [s'|] eqn:E; [|apply grows_refl].
  exact (grows_trans _ _ _ (exec_grows s s' q E) (IH s')).
Qed.

Lemma create_table_grows (nm : string) (cols : list (string * string)) (s : store) :
  grows s (create_table nm cols s).
Proof.
  unfold create_table. case_match; [apply grows_refl|].
  pose proof (grows_refl s) as (Ha & Hu & Hr & Hp). split; [exact Ha|].
  split; [exact Hu|]. split; [exact Hr|exact Hp].
Qed.

Lemma init_db_grows (h : string -> string) (s : store) : grows s (init_db h s).
Proof.
  unfold init_db; cbv zeta.
  eapply grows_trans; [apply create_table_grows|].
  eapply grows_trans; [apply create_table_grows|].
  eapply grows_trans; [apply create_table_grows|].
  eapply grows_trans; [apply create_table_grows|].
  case_match; [apply grows_refl | apply run_grows].
Qed.

Lemma apply_ops_grows (h l : string -> string) (os : list op) (s : store) :
  grows s (apply_ops h l s os).
Proof.
  unfold apply_ops. revert s. induction os as [|o os IH]; intros s; simpl; [apply grows_refl|].
  eapply grows_trans; [|apply IH]. destruct o; simpl; [apply init_db_grows | apply run_grows].
Qed.

Lemma others_stmts_props (u : user_row) (os : list cart_item) (rids : list string)
    (d ts : string) (q : stmt) :
  In q (others_stmts u os rids d ts) -> stmt_status_ok q = true /\ touches_payments q = false.
Proof.
  revert rids. induction os as [|i os IH]; intros rids Hin; simpl in Hin; [contradiction|].
  destruct Hin as [<-|[<-|Hin]]; [|split; reflexivity|exact (IH _ Hin)].
  split; [|reflexivity]. simpl. unfold route_status.
  destruct (String.eqb (ctype i) "Stationary"); [reflexivity|].
  destruct (_ && _)%bool; reflexivity.
Qed.

Lemma cart_stmts_props (u : user_row) (cart : list cart_item) (rids : list string)
    (d ts : string) (q : stmt) :
  In q (process_cart_submission u cart rids d ts) ->
  stmt_status_ok q = true /\ touches_payments q = false.
Proof.
  unfold process_cart_submission. destruct cart as [|c0 cart]; [contradiction|].
  destruct (List.filter is_stationary (c0 :: cart)) as [|s0 sts].
  - apply others_stmts_props.
  - intros [<-|[<-|Hin]]; [split; reflexivity|split; reflexivity|].
    exact (others_stmts_props _ _ _ _ _ _ Hin).
Qed.

Lemma event_stmts_status_ok (h l : string -> string) (s : store) (ev : event) (q : stmt) :
  In q (event_stmts h l s ev) -> stmt_status_ok q = true.
Proof.
  intros Hin.
  destruct ev; simpl in Hin; try exact (proj1 (cart_stmts_props _ _ _ _ _ _ Hin));
    unfold admin_row in Hin;
    repeat (case_match; simpl in *; try contradiction);
    repeat in_list_cases; try contradiction; try reflexivity;
    eqb_facts; reflexivity.
Qed.

(** The only statements writing payments: the GMD approve and Mark Paid. *)
Lemma event_payment_writes (h l : string -> string) (s : store) (ev : event) (q : stmt) :
  In q (event_stmts h l s ev) -> touches_payments q = true ->
  (exists rid pid r, ev = EvApprove "GMD" rid pid /\ requests s !! rid = Some r
     /\ status r = "Pending GMD"
     /\ event_stmts h l s ev = [SSetStatus "Approved" rid;
          SInsertPayment (mk_payment pid rid (amount r) "Ready for Accounts" (vendor r))])
  \/ (exists pid p r, ev = EvMarkPaid pid /\ payments s !! pid = Some p
       /\ pay_status p = "Ready for Accounts" /\ requests s !! req_id p = Some r
       /\ event_stmts h l s ev = [SMarkPaid pid]).
Proof.
  intros Hin Ht.
  destruct ev as [| | | | | | | | |rl rid pid| | |pid].
  10:{ left. simpl in Hin. destruct (approver_config rl) as [[t n]|] eqn:Ec; [|contradiction].
       destruct (requests s !! rid) as [r|] eqn:Er; [|contradiction].
       destruct (String.eqb (status r) t) eqn:Et; [|contradiction].
       destruct (String.eqb rl "GMD") eqn:Eg.
       - apply String.eqb_eq in Eg, Et. subst rl.
         apply approver_config_cases in Ec as [(? & ? & ?)|[(? & ? & ?)|(? & ? & ?)]];
           try discriminate. subst.
         exists rid, pid, r. repeat split; try assumption.
         simpl. rewrite Er. rewrite Et. reflexivity.
       - destruct Hin as [<-|[]]. discriminate. }
  12:{ right. simpl in Hin. destruct (payments s !! pid) as [p|] eqn:Ep; [|contradiction].
       destruct (String.eqb (pay_status p) "Ready for Accounts") eqn:Es; [|contradiction].
       destruct (requests s !! req_id p) as [r|] eqn:Er; [|contradiction].
       apply String.eqb_eq in Es. exists pid, p, r. repeat split; try assumption.
       simpl. rewrite Ep, Es, Er. reflexivity. }
  all: exfalso; simpl in Hin;
    try (rewrite (proj2 (cart_stmts_props _ _ _ _ _ _ Hin)) in Ht; discriminate);
    unfold admin_row in Hin;
    repeat (case_match; simpl in *; try contradiction);
    repeat in_list_cases; try contradiction; discriminate.
Qed.

Lemma exec_status_known (s s' : store) (q : stmt) :
  (forall k r, requests s !! k = Some r -> known_status (status r) = true) ->
  stmt_status_ok q = true -> exec s q = Some s' ->
  forall k r, requests s' !! k = Some r -> known_status (status r) = true.
Proof.
  intros Hs Hq He k r Hk.
  destruct q; simpl in He; repeat case_match; try discriminate;
    injection He as <-; simpl in Hk; try exact (Hs k r Hk).
  - destruct (decide (k = id r0)) as [->|Hne].
    + rewrite lookup_insert_eq in Hk. injection Hk as <-. exact Hq.
    + rewrite lookup_insert_ne in Hk by congruence. exact (Hs k r Hk).
  - destruct (requests s !! k) as [r0|] eqn:E0.
    + destruct (lookup_alter_cases _ _ _ _ _ _ E0 Hk) as [[_ ->] | ->]; [exact Hq|exact (Hs k r0 E0)].
    + erewrite (proj2 (lookup_alter_None _ _ _ _)) in Hk; [discriminate|exact E0].
  - destruct (requests s !! k) as [r0|] eqn:E0.
    + destruct (lookup_alter_cases _ _ _ _ _ _ E0 Hk) as [[_ ->] | ->]; [reflexivity|exact (Hs k r0 E0)].
    + erewrite (proj2 (lookup_alter_None _ _ _ _)) in Hk; [discriminate|exact E0].
  - destruct (requests s !! k) as [r0|] eqn:E0.
    + destruct (lookup_alter_cases _ _ _ _ _ _ E0 Hk) as [[_ ->] | ->]; [reflexivity|exact (Hs k r0 E0)].
    + erewrite (proj2 (lookup_alter_None _ _ _ _)) in Hk; [discriminate|exact E0].
Qed.

Lemma run_status_known (qs : list stmt) (s : store) :
  (forall k r, requests s !! k = Some r -> known_status (status r) = true) ->
  (forall q, In q qs -> stmt_status_ok q = true) ->
  forall k r, requests (fst (run s qs)) !! k = Some r -> known_status (status r) = true.
Proof.
  revert s. induction qs as [|q qs IH]; intros s Hs Hq; simpl; [exact Hs|].
  destruct (exec s q) as [s1|] eqn:E; [|exact Hs].
  apply IH; [|intros q' Hq'; apply Hq; right; exact Hq'].
  exact (exec_status_known _ _ _ Hs (Hq q (or_introl eq_refl)) E).
Qed.

Lemma run_payments_same (qs : list stmt) (s : store) :
  (forall q, In q qs -> touches_payments q = false) ->
  payments (fst (run s qs)) = payments s.
Proof.
  revert s. induction qs as [|q qs IH]; intros s Hq; simpl; [reflexivity|].
  destruct (exec s q) as [s1|] eqn:E; [|reflexivity].
  rewrite IH by (intros q' Hq'; apply Hq; right; exact Hq').
  pose proof (Hq q (or_introl eq_refl)) as Ht.
  destruct q; simpl in E, Ht; try discriminate; repeat case_match; try discriminate;
    injection E as <-; reflexivity.
Qed.

Lemma step_keeps_approved (h l : string -> string) (s : store) (ev : event)
    (k : string) (r : request_row) :
  requests s !! k = Some r -> status r = "Approved" -> requests (step h l s ev) !! k = Some r.
Proof.
  intros Hk Hst. apply step_keeps_unaltered; [exact Hk|].
  intros r' t Hk' Ht Heq. rewrite Hk in Hk'. injection Hk' as <-.
  pose proof (trigger_not_terminal _ _ Ht) as Hn. rewrite <- Heq, Hst in Hn. discriminate.
Qed.

Lemma step_tables_inv (h l : string -> string) (s : store) (ev : event) :
  tables_inv s -> tables_inv (step h l s ev).
Proof.
  intros (Hst & Hpay & Huniq). split.
  { apply run_status_known; [exact Hst|]. intros q Hq. exact (event_stmts_status_ok h l s ev q Hq). }
  destruct (existsb touches_payments (event_stmts h l s ev)) eqn:Ex.
  - apply existsb_exists in Ex as (q & Hq & Ht).
    destruct (event_payment_writes h l s ev q Hq Ht)
      as [(rid & pid & r & -> & Hr & Hrs & Hstm)|(pid & p & r & -> & Hp & Hps & Hr & Hstm)].
    + (* GMD approval: the row goes to Approved, a payment may be inserted *)
      assert (Hold : forall k p, payments s !! k = Some p ->
                requests (set_requests s (alter (with_status "Approved") rid (requests s))) !! req_id p
                = requests s !! req_id p).
      { intros k p Hk. simpl. apply lookup_alter_ne. intros Heq.
        destruct (Hpay k p Hk) as (_ & _ & r' & Hr' & Hs' & _).
        rewrite <- Heq, Hr in Hr'. injection Hr' as <-. rewrite Hrs in Hs'. discriminate. }
      assert (Hnew : requests (set_requests s (alter (with_status "Approved") rid (requests s))) !! rid
                     = Some (with_status "Approved" r)).
      { simpl. rewrite lookup_alter_eq, Hr. reflexivity. }
      unfold step. rewrite Hstm. cbn [run exec set_requests payments payment_id].
      destruct (payments s !! pid) as [p0|] eqn:Epid; cbn [fst].
      * split.
        -- intros k p Hk. cbn [payments set_requests] in Hk.
           destruct (Hpay k p Hk) as (Hid & Hps & r' & Hr' & Hx).
           split; [exact Hid|]. split; [exact Hps|]. exists r'. rewrite (Hold k p Hk). split; [exact Hr'|exact Hx].
        -- exact Huniq.
      * cbn [payments set_payments set_requests]. split.
        -- intros k p Hk. destruct (decide (k = pid)) as [->|Hne].
           ++ rewrite lookup_insert_eq in Hk. injection Hk as <-. cbn.
              split; [reflexivity|]. split; [left; reflexivity|].
              exists (with_status "Approved" r). rewrite lookup_alter_eq, Hr.
              split; [reflexivity|]. split; [reflexivity|]. split; reflexivity.
           ++ rewrite lookup_insert_ne in Hk by congruence.
              destruct (Hpay k p Hk) as (Hid & Hps & r' & Hr' & Hx).
              split; [exact Hid|]. split; [exact Hps|]. exists r'.
              pose proof (Hold k p Hk) as Ho. cbn in Ho |- *. rewrite Ho. split; [exact Hr'|exact Hx].
        -- assert (Hnot : forall k p, payments s !! k = Some p -> req_id p <> rid).
           { intros k p Hk Heq. destruct (Hpay k p Hk) as (_ & _ & r' & Hr' & Hs' & _).
             rewrite Heq, Hr in Hr'. injection Hr' as <-. rewrite Hrs in Hs'. discriminate. }
           intros k1 k2 p1 p2 H1 H2 Heq.
           destruct (decide (k1 = pid)) as [->|Hne1]; destruct (decide (k2 = pid)) as [->|Hne2];
             try reflexivity.
           ++ rewrite lookup_insert_eq in H1. rewrite lookup_insert_ne in H2 by congruence.
              injection H1 as <-. exfalso. exact (Hnot k2 p2 H2 (eq_sym Heq)).
           ++ rewrite lookup_insert_eq in H2. rewrite lookup_insert_ne in H1 by congruence.
              injection H2 as <-. exfalso. exact (Hnot k1 p1 H1 Heq).
           ++ rewrite lookup_insert_ne in H1, H2 by congruence. exact (Huniq k1 k2 p1 p2 H1 H2 Heq).
    + (* Mark Paid: only the payment's status changes *)
      unfold step. rewrite Hstm. cbn [run exec fst payments requests set_payments].
      assert (Hc : forall k p', alter (with_pay_status "Paid") pid (payments s) !! k = Some p' ->
                exists p0, payments s !! k = Some p0 /\ pay_fixed p' = pay_fixed p0
                  /\ (pay_status p' = "Paid" \/ p' = p0)).
      { intros k p' Hk. destruct (decide (k = pid)) as [->|Hne].
        - rewrite lookup_alter_eq, Hp in Hk. injection Hk as <-. exists p.
          split; [exact Hp|]. split; [reflexivity|left; reflexivity].
        - rewrite lookup_alter_ne in Hk by congruence. exists p'.
          split; [exact Hk|]. split; [reflexivity|right; reflexivity]. }
      split.
      * intros k p' Hk. destruct (Hc k p' Hk) as (p0 & H0 & Hf & Hs').
        destruct (Hpay k p0 H0) as (Hid & Hq0 & r' & Hr' & Hx & Ham & Hv).
        unfold pay_fixed in Hf. injection Hf as E1 E2 E3 E4.
        split; [congruence|]. split; [destruct Hs' as [Hs'| ->]; [right; exact Hs'|exact Hq0]|].
        exists r'. rewrite E2. split; [exact Hr'|]. split; [exact Hx|]. split; congruence.
      * intros k1 k2 p1 p2 H1 H2 Heq.
        destruct (Hc k1 p1 H1) as (q1 & G1 & F1 & _). destruct (Hc k2 p2 H2) as (q2 & G2 & F2 & _).
        unfold pay_fixed in F1, F2. injection F1 as _ F1 _ _. injection F2 as _ F2 _ _.
        apply (Huniq k1 k2 q1 q2 G1 G2). congruence.
  - assert (Hno : forall q, In q (event_stmts h l s ev) -> touches_payments q = false).
    { intros q Hq. destruct (touches_payments q) eqn:Et; [|reflexivity].
      assert (existsb touches_payments (event_stmts h l s ev) = true) as Hc
        by (apply existsb_exists; exists q; split; assumption).
      congruence. }
    unfold step. rewrite (run_payments_same _ _ Hno). fold (step h l s ev). split.
    + intros k p Hk. destruct (Hpay k p Hk) as (Hid & Hps & r' & Hr' & Hx).
      split; [exact Hid|]. split; [exact Hps|]. exists r'.
      split; [exact (step_keeps_approved h l s ev _ _ Hr' (proj1 Hx))|exact Hx].
    + exact Huniq.
Qed.

Lemma init_db_payments (h : string -> string) (s : store) :
  payments (init_db h s) = payments s.
Proof.
  assert (Hc : forall nm cols s0, payments (create_table nm cols s0) = payments s0)
    by (intros; unfold create_table; case_match; reflexivity).
  unfold init_db; cbv zeta.
  destruct (users _ !! "super") eqn:E.
  - rewrite !Hc. reflexivity.
  - unfold run, exec, super_row, username. rewrite E. simpl. rewrite !Hc. reflexivity.
Qed.

Lemma reachable_tables_inv (h l : string -> string) (s : store) :
  reachable h l s -> tables_inv s.
Proof.
  induction 1 as [|s Hs IH|s ev _ IH].
  - unfold tables_inv. rewrite init_db_requests, init_db_payments. simpl.
    split; [intros k r Hk; rewrite lookup_empty in Hk; discriminate|].
    split; [intros k p Hk; rewrite lookup_empty in Hk; discriminate|].
    intros k1 k2 p1 p2 H1; rewrite lookup_empty in H1; discriminate.
  - rewrite init_db_ok_id; [exact IH|exact (reachable_ok h l s Hs)].
  - apply step_tables_inv. exact IH.
Qed.

Lemma reachable_status_known (h l : string -> string) (s : store) (k : string)
    (r : request_row) :
  reachable h l s -> requests s !! k = Some r ->
  known_status (status r) = true /\ status r <> "Paid" /\ status r <> "Ready for Accounts".
Proof.
  intros Hr Hk. pose proof (proj1 (reachable_tables_inv h l s Hr) k r Hk) as Hkn.
  split; [exact Hkn|]. split; intros Heq; rewrite Heq in Hkn; discriminate.
Qed.

(** ** Properties of whole sessions and of reachable stores *)

(** X1: over any sequence of page reruns and button presses, the audit
    table is append-only: the entries present before are kept, in order,
    as a prefix of the later table. *)
Theorem apply_ops_audit_append_only (h l : string -> string) (os : list op) (s : store) :
  exists au, audit (apply_ops h l s os) = app (audit s) au.
Proof. exact (proj1 (apply_ops_grows h l os s)). Qed.

(** X2: no request row is ever deleted, and its id, owner, requester name,
    department, approver email, category, item and date never change. *)
Theorem apply_ops_keeps_requests (h l : string -> string) (os : list op) (s : store)
    (k : string) (r : request_row) :
  requests s !! k = Some r ->
  exists r', requests (apply_ops h l s os) !! k = Some r' /\ req_fixed r' = req_fixed r.
Proof. exact (proj1 (proj2 (proj2 (apply_ops_grows h l os s))) k r). Qed.

(** X3: no user row is ever deleted, and its username, role, name, email,
    department and HOD email never change (only password and force_reset
    are ever updated). *)
Theorem apply_ops_keeps_users (h l : string -> string) (os : list op) (s : store)
    (k : string) (u : user_row) :
  users s !! k = Some u ->
  exists u', users (apply_ops h l s os) !! k = Some u' /\ user_fixed u' = user_fixed u.
Proof. exact (proj1 (proj2 (apply_ops_grows h l os s)) k u). Qed.

(** X4: no payment row is ever deleted, and its payment id, request id,
    amount and vendor never change (only its status is ever updated). *)
Theorem apply_ops_keeps_payments (h l : string -> string) (os : list op) (s : store)
    (k : string) (p : payment_row) :
  payments s !! k = Some p ->
  exists p', payments (apply_ops h l s os) !! k = Some p' /\ pay_fixed p' = pay_fixed p.
Proof. exact (proj2 (proj2 (proj2 (apply_ops_grows h l os s))) k p). Qed.

(** X5: on every store the program can reach, rerunning the script's
    [init_db()] changes nothing: the tables and the superuser exist. *)
Theorem reachable_init_db_idempotent (h l : string -> string) (s : store) :
  reachable h l s -> init_db h s = s.
Proof. intros Hr. apply init_db_ok_id. exact (reachable_ok h l s Hr). Qed.

(** X6: in every reachable store each request's status is one of the ten
    statuses the program writes; in particular no request is ever in
    'Paid' or 'Ready for Accounts', which only payment rows carry. *)
Theorem reachable_request_status (h l : string -> string) (s : store) (k : string)
    (r : request_row) :
  reachable h l s -> requests s !! k = Some r ->
  known_status (status r) = true /\ status r <> "Paid" /\ status r <> "Ready for Accounts".
Proof. exact (reachable_status_known h l s k r). Qed.

(** X7: in every reachable store, each row of the HOD's spend report for a
    department is a request of that department in status 'Approved' (the
    query's 'Paid' alternative never matches). *)
Theorem reachable_hod_spend_approved (h l : string -> string) (s : store) (d k : string)
    (x : string * string * string * Q) :
  reachable h l s -> hod_spend s d !! k = Some x ->
  exists r, requests s !! k = Some r /\ status r = "Approved" /\ department r = d
            /\ x = (date r, item r, vendor r, amount r).
Proof.
  intros Hr Hx. unfold hod_spend in Hx. rewrite lookup_omap in Hx.
  destruct (requests s !! k) as [r|] eqn:Hk; simpl in Hx; [|discriminate].
  destruct (String.eqb (department r) d && _)%bool eqn:E; [|discriminate].
  injection Hx as <-. apply andb_true_iff in E as [Ed Es]. apply String.eqb_eq in Ed.
  exists r. split; [reflexivity|]. split; [|split; [exact Ed|reflexivity]].
  destruct (reachable_status_known h l s k r Hr Hk) as (_ & Hp & _).
  apply orb_true_iff in Es as [Es|Es]; apply String.eqb_eq in Es; [exact Es|contradiction].
Qed.

(** X8: in every reachable store, each payment row is stored under its own
    payment id, is 'Ready for Accounts' or 'Paid', and references an
    existing 'Approved' request with the same amount and vendor; so the
    Accounts page's JOIN finds the request of every payment. *)
Theorem reachable_payment_matches_request (h l : string -> string) (s : store) (k : string)
    (p : payment_row) :
  reachable h l s -> payments s !! k = Some p ->
  payment_id p = k /\ (pay_status p = "Ready for Accounts" \/ pay_status p = "Paid")
  /\ exists r, requests s !! req_id p = Some r /\ status r = "Approved"
               /\ pay_amount p = amount r /\ pay_vendor p = vendor r.
Proof. intros Hr Hk. exact (proj1 (proj2 (reachable_tables_inv h l s Hr)) k p Hk). Qed.

(** X9: in every reachable store, at most one payment row references a
    given request. *)
Theorem reachable_one_payment_per_request (h l : string -> string) (s : store)
    (k1 k2 : string) (p1 p2 : payment_row) :
  reachable h l s -> payments s !! k1 = Some p1 -> payments s !! k2 = Some p2 ->
  req_id p1 = req_id p2 -> k1 = k2.
Proof. intros Hr. exact (proj2 (proj2 (reachable_tables_inv h l s Hr)) k1 k2 p1 p2). Qed.

(** ** Login, password change and user creation *)

(** X10: the forced password change with two equal non-empty entries
    stores the new hash and clears force_reset; afterwards login with the
    new password succeeds and the change form no longer has any effect. *)
Theorem change_password_success (h l : string -> string) (s : store) (key p1 : string)
    (cu : user_row) :
  users s !! key = Some cu -> force_reset cu = 1%Z -> p1 <> "" ->
  let s' := step h l s (EvChangePassword key p1 p1) in
  s' = set_users s (<[key := with_password (h p1) cu]> (users s))
  /\ (forall u_in, l u_in = key -> login_ok h l s' u_in p1 = true)
  /\ (forall p2 p3, step h l s' (EvChangePassword key p2 p3) = s').
Proof.
  intros Hu Hf Hp s'.
  assert (Hs' : s' = set_users s (<[key := with_password (h p1) cu]> (users s))).
  { unfold s', step, event_stmts, get_user. rewrite Hu, Hf, String.eqb_refl.
    apply String.eqb_neq in Hp. rewrite Hp. cbn. f_equal.
    apply map_eq. intros i. destruct (decide (i = key)) as [->|Hne].
    - rewrite lookup_alter_eq, lookup_insert_eq, Hu. reflexivity.
    - rewrite lookup_alter_ne, lookup_insert_ne by congruence. reflexivity. }
  split; [exact Hs'|]. rewrite Hs'. split.
  - intros u_in Hl. unfold login_ok, get_user, check_hash, make_hash. cbn.
    rewrite Hl, lookup_insert_eq. apply String.eqb_refl.
  - intros p2 p3. unfold step, event_stmts, get_user. cbn. rewrite lookup_insert_eq. reflexivity.
Qed.

(** X11: the password form changes nothing unless both entries are equal
    and non-empty and the current user exists with force_reset = 1. *)
Theorem change_password_rejected (h l : string -> string) (s : store) (key p1 p2 : string) :
  ~ (p1 = p2 /\ p1 <> "" /\ exists cu, users s !! key = Some cu /\ force_reset cu = 1%Z) ->
  step h l s (EvChangePassword key p1 p2) = s.
Proof.
  intros Hn. unfold step, event_stmts, get_user.
  destruct (users s !! key) as [cu|] eqn:Hu; [|reflexivity].
  destruct (Z.eqb (force_reset cu) 1) eqn:Ef; [|reflexivity].
  destruct (String.eqb p1 p2 && negb (String.eqb p1 ""))%bool eqn:Ep; [|reflexivity].
  exfalso. apply Hn. apply andb_true_iff in Ep as [E1 E2]. apply String.eqb_eq in E1.
  apply negb_true_iff, String.eqb_neq in E2. apply Z.eqb_eq in Ef.
  split; [exact E1|]. split; [exact E2|]. exists cu. split; [reflexivity|]. exact Ef.
Qed.

(** X12: the superuser's Create on a fresh non-empty (lowercased) username
    and a non-empty password inserts the user with the hashed password and
    force_reset = 1; that user can then log in with the same input. *)
Theorem create_user_fresh (h l : string -> string) (s : store) (u p n e r d hh : string) :
  users s !! l u = None -> l u <> "" -> p <> "" ->
  let s' := step h l s (EvCreateUser u p n e r d hh) in
  s' = set_users s (<[l u := mk_user (l u) (h p) r n e d hh 1]> (users s))
  /\ login_ok h l s' u p = true.
Proof.
  intros Hu Hl Hp s'.
  assert (Hs' : s' = set_users s (<[l u := mk_user (l u) (h p) r n e d hh 1]> (users s))).
  { unfold s', step, event_stmts. apply String.eqb_neq in Hl, Hp. rewrite Hl, Hp. cbn.
    rewrite Hu. reflexivity. }
  split; [exact Hs'|]. rewrite Hs'. unfold login_ok, get_user, check_hash, make_hash. cbn.
  rewrite lookup_insert_eq. apply String.eqb_refl.
Qed.

(** X13: Create changes nothing when the lowercased username is empty, the
    password is empty, or the username is taken (the primary key rejects
    the INSERT and the error is shown). *)
Theorem create_user_rejected (h l : string -> string) (s : store) (u p n e r d hh : string) :
  l u = "" \/ p = "" \/ users s !! l u <> None ->
  step h l s (EvCreateUser u p n e r d hh) = s.
Proof.
  intros Hc. unfold step, event_stmts.
  destruct (negb (String.eqb (l u) "") && negb (String.eqb p ""))%bool eqn:E; [|reflexivity].
  apply andb_true_iff in E as [E1 E2]. apply negb_true_iff, String.eqb_neq in E1, E2. cbn.
  destruct (users s !! l u) as [x|] eqn:Hu; [reflexivity|].
  destruct Hc as [Hc|[Hc|Hc]]; contradiction.
Qed.

(** X14: a failed login changes nothing; a successful one only appends the
    audit entry (user's name, 'Login', 'Success'). *)
Theorem login_effect (h l : string -> string) (s : store) (u p ts : string) :
  (login_ok h l s u p = false -> step h l s (EvLogin u p ts) = s)
  /\ (forall usr, users s !! l u = Some usr -> login_ok h l s u p = true ->
      step h l s (EvLogin u p ts)
        = set_audit s (app (audit s) [mk_audit ts (name usr) "Login" "Success"])).
Proof.
  unfold login_ok, step, event_stmts, get_user. split.
  - destruct (users s !! l u) as [usr|]; [|reflexivity].
    intros Hf. rewrite Hf. reflexivity.
  - intros usr Hu Ht. rewrite Hu in Ht |- *. rewrite Ht. reflexivity.
Qed.

(** ** Repeated button presses *)

Lemma step_no_stmts (h l : string -> string) (s : store) (ev : event) :
  event_stmts h l s ev = [] -> step h l s ev = s.
Proof. intros E. unfold step. rewrite E. reflexivity. Qed.

Lemma noop_idem (h l : string -> string) (s : store) (ev : event) :
  step h l s ev = s -> step h l (step h l s ev) ev = step h l s ev.
Proof. intros E. rewrite E. exact E. Qed.

Lemma fired_idem (h l : string -> string) (s s1 : store) (ev : event) :
  step h l s ev = s1 -> event_stmts h l s1 ev = [] -> step h l (step h l s ev) ev = step h l s ev.
Proof. intros E1 E2. rewrite E1. apply step_no_stmts. exact E2. Qed.

Lemma alter_some_insert {A} (f : A -> A) (m : gmap string A) (k : string) (x : A) :
  m !! k = Some x -> alter f k m = <[k := f x]> m.
Proof.
  intros Hk. apply map_eq. intros i. destruct (decide (i = k)) as [->|Hne].
  - rewrite lookup_alter_eq, lookup_insert_eq, Hk. reflexivity.
  - rewrite lookup_alter_ne, lookup_insert_ne by congruence. reflexivity.
Qed.

Lemma step_set_status (h l : string -> string) (s : store) (ev : event) (st rid : string)
    (r : request_row) :
  event_stmts h l s ev = [SSetStatus st rid] -> requests s !! rid = Some r ->
  step h l s ev = set_requests s (<[rid := with_status st r]> (requests s))
  /\ requests (step h l s ev) !! rid = Some (with_status st r).
Proof.
  intros E Hr. unfold step. rewrite E. cbn. rewrite (alter_some_insert _ _ _ _ Hr).
  split; [reflexivity|]. apply lookup_insert_eq.
Qed.

Lemma cart_first_insert (u : user_row) (cart : list cart_item) (rids : list string)
    (d ts : string) :
  cart <> [] -> exists R rest, process_cart_submission u cart rids d ts = SInsertRequest R :: rest.
Proof.
  intros Hc. unfold process_cart_submission. destruct cart as [|c0 cart]; [contradiction|].
  destruct (List.filter is_stationary (c0 :: cart)) as [|s0 sts] eqn:Ef; [|do 2 eexists; reflexivity].
  simpl in Ef |- *. destruct (is_stationary c0) eqn:Ec; [discriminate|]. simpl.
  do 2 eexists; reflexivity.
Qed.

(** X15: pressing the same button again with the same inputs (any action
    but Login, which logs a new audit entry each time) has no further
    effect: the fetch guarding each UPDATE no longer returns the row, and
    each INSERT hits its primary key. *)
Theorem repeat_press_no_effect (h l : string -> string) (s : store) (ev : event) :
  (forall u p ts, ev <> EvLogin u p ts) ->
  step h l (step h l s ev) ev = step h l s ev.
Proof.
  intros Hev.
  destruct (event_stmts h l s ev) as [|q0 qs] eqn:E0; [apply noop_idem, step_no_stmts, E0|].
  pose proof E0 as E.
  destruct ev as [u p ts|key p1 p2|u p n e r d hh|usr cart rids d ts|usr rid|usr rid|rid|rid
                 |rid v c img|rl rid pid|rl rid|rid cost note|pid].
  - exfalso. exact (Hev _ _ _ eq_refl).
  - (* forced password change: force_reset is now 0 *)
    unfold event_stmts, get_user in E. destruct (users s !! key) as [cu|] eqn:Hu; [|discriminate].
    destruct (Z.eqb (force_reset cu) 1); [|discriminate].
    destruct (_ && _)%bool; [|discriminate]. injection E as <- <-.
    apply (fired_idem h l s (step h l s (EvChangePassword key p1 p2))); [reflexivity|].
    unfold step. rewrite E0. cbn [run exec fst event_stmts get_user users set_users].
    unfold get_user, set_users. cbn [users]. rewrite lookup_alter_eq, Hu. reflexivity.
  - (* user creation: the username is now taken *)
    unfold event_stmts in E.
    destruct (negb (String.eqb (l u) "") && negb (String.eqb p ""))%bool eqn:Eg; [|discriminate].
    injection E as <- <-.
    destruct (users s !! l u) as [x|] eqn:Hu.
    + apply noop_idem. unfold step. rewrite E0. cbn. rewrite Hu. reflexivity.
    + assert (Hs : step h l s (EvCreateUser u p n e r d hh)
                   = set_users s (<[l u := mk_user (l u) (make_hash h p) r n e d hh 1]> (users s)))
        by (unfold step; rewrite E0; cbn; rewrite Hu; reflexivity).
      rewrite Hs. unfold step, event_stmts. rewrite Eg. cbn. rewrite lookup_insert_eq. reflexivity.
  - (* cart submission: the first request id is now taken *)
    assert (Hc : cart <> []) by (intros ->; discriminate).
    destruct (cart_first_insert usr cart rids d ts Hc) as (R & rest & Ec).
    assert (Hst : forall s0, event_stmts h l s0 (EvSubmitCart usr cart rids d ts)
                             = SInsertRequest R :: rest) by (intros s0; exact Ec).
    destruct (requests s !! id R) as [x|] eqn:Hr.
    + apply noop_idem. unfold step. rewrite Hst. cbn. rewrite Hr. reflexivity.
    + assert (Hs : step h l s (EvSubmitCart usr cart rids d ts)
                   = fst (run (set_requests s (<[id R := R]> (requests s))) rest))
        by (unfold step; rewrite Hst; cbn; rewrite Hr; reflexivity).
      destruct (proj1 (proj2 (proj2 (run_grows rest (set_requests s (<[id R := R]> (requests s))))))
                  (id R) R ltac:(cbn; apply lookup_insert_eq)) as (R' & HR' & _).
      rewrite Hs. unfold step at 1. rewrite Hst. cbn [run exec]. rewrite HR'.
      reflexivity.
  - (* HOD approve: the row is now Pending Admin *)
    unfold event_stmts in E. destruct (requests s !! rid) as [r|] eqn:Hr; [|discriminate].
    destruct (_ && _)%bool; [|discriminate]. injection E as <- <-.
    destruct (step_set_status h l s _ _ _ r E0 Hr) as [_ Hl].
    apply (fired_idem h l s (step h l s (EvHodApprove usr rid))); [reflexivity|].
    cbn [event_stmts]. rewrite Hl. reflexivity.
  - (* HOD decline: the row is now Declined *)
    unfold event_stmts in E. destruct (requests s !! rid) as [r|] eqn:Hr; [|discriminate].
    destruct (_ && _)%bool; [|discriminate]. injection E as <- <-.
    destruct (step_set_status h l s _ _ _ r E0 Hr) as [_ Hl].
    apply (fired_idem h l s (step h l s (EvHodDecline usr rid))); [reflexivity|].
    cbn [event_stmts]. rewrite Hl. reflexivity.
  - (* Issue: the row is now Completed (Fulfilled) *)
    unfold event_stmts, admin_row in E. destruct (requests s !! rid) as [r|] eqn:Hr; [|discriminate].
    destruct (String.eqb (status r) "Pending Admin"); [|discriminate].
    destruct (String.eqb (category r) "Stationary"); [|discriminate]. injection E as <- <-.
    destruct (step_set_status h l s _ _ _ r E0 Hr) as [_ Hl].
    apply (fired_idem h l s (step h l s (EvAdminIssue rid))); [reflexivity|].
    cbn [event_stmts]. unfold admin_row. rewrite Hl. reflexivity.
  - (* Resolve: the row is now Completed (Resolved) *)
    unfold event_stmts, admin_row in E. destruct (requests s !! rid) as [r|] eqn:Hr; [|discriminate].
    destruct (String.eqb (status r) "Pending Admin"); [|discriminate].
    destruct (_ && _)%bool; [|discriminate]. injection E as <- <-.
    destruct (step_set_status h l s _ _ _ r E0 Hr) as [_ Hl].
    apply (fired_idem h l s (step h l s (EvAdminResolve rid))); [reflexivity|].
    cbn [event_stmts]. unfold admin_row. rewrite Hl. reflexivity.
  - (* costed submit: the row is now Pending SS HOD *)
    unfold event_stmts, admin_row in E. destruct (requests s !! rid) as [r|] eqn:Hr; [|discriminate].
    destruct (String.eqb (status r) "Pending Admin"); [|discriminate].
    destruct (negb _); [|discriminate]. destruct img as [ib|]; [|discriminate].
    destruct (_ && _)%bool; [|discriminate]. injection E as <- <-.
    apply (fired_idem h l s (step h l s (EvAdminSubmit rid v c (Some ib)))); [reflexivity|].
    cbn [event_stmts]. unfold admin_row, step. rewrite E0. cbn [run exec fst requests set_requests].
    rewrite lookup_alter_eq, Hr. reflexivity.
  - (* approve: the row has left the role's trigger status *)
    unfold event_stmts in E. destruct (approver_config rl) as [[t nx]|] eqn:Ec; [|discriminate].
    destruct (requests s !! rid) as [r|] eqn:Hr; [|discriminate].
    destruct (String.eqb (status r) t) eqn:Et; [|discriminate].
    apply (fired_idem h l s (step h l s (EvApprove rl rid pid))); [reflexivity|].
    destruct (String.eqb rl "GMD") eqn:Eg.
    + injection E as <- <-.
      assert (Hl : requests (step h l s (EvApprove rl rid pid)) !! rid
                   = Some (with_status "Approved" r)).
      { unfold step. rewrite E0. cbn [run exec set_requests payments payment_id].
        destruct (payments s !! pid); cbn; rewrite lookup_alter_eq, Hr; reflexivity. }
      cbn [event_stmts]. rewrite Ec, Hl. apply String.eqb_eq in Eg. subst rl.
      cbn in Ec. injection Ec as <- <-. reflexivity.
    + injection E as <- <-.
      destruct (step_set_status h l s _ _ _ r E0 Hr) as [_ Hl].
      cbn [event_stmts]. rewrite Ec, Hl.
      apply approver_config_cases in Ec as [(-> & -> & ->)|[(-> & -> & ->)|(-> & -> & ->)]];
        [reflexivity|reflexivity|discriminate].
  - (* decline: the row is now Declined *)
    unfold event_stmts in E. destruct (approver_config rl) as [[t nx]|] eqn:Ec; [|discriminate].
    destruct (requests s !! rid) as [r|] eqn:Hr; [|discriminate].
    destruct (String.eqb (status r) t); [|discriminate]. injection E as <- <-.
    destruct (step_set_status h l s _ _ _ r E0 Hr) as [_ Hl].
    apply (fired_idem h l s (step h l s (EvDecline rl rid))); [reflexivity|].
    cbn [event_stmts]. rewrite Ec, Hl.
    apply approver_config_cases in Ec as [(-> & -> & ->)|[(-> & -> & ->)|(-> & -> & ->)]];
      reflexivity.
  - (* SAC validate: the row is now Pending ED *)
    unfold event_stmts in E. destruct (requests s !! rid) as [r|] eqn:Hr; [|discriminate].
    destruct (String.eqb (status r) "Pending SAC"); [|discriminate]. injection E as <- <-.
    apply (fired_idem h l s (step h l s (EvSacValidate rid cost note))); [reflexivity|].
    cbn [event_stmts]. unfold step. rewrite E0. cbn [run exec fst requests set_requests].
    rewrite lookup_alter_eq, Hr. reflexivity.
  - (* Mark Paid: the payment is now Paid *)
    unfold event_stmts in E. destruct (payments s !! pid) as [p|] eqn:Hp; [|discriminate].
    destruct (String.eqb (pay_status p) "Ready for Accounts"); [|discriminate].
    destruct (requests s !! req_id p); [|discriminate]. injection E as <- <-.
    apply (fired_idem h l s (step h l s (EvMarkPaid pid))); [reflexivity|].
    cbn [event_stmts]. unfold step. rewrite E0. cbn [run exec fst payments set_payments].
    rewrite lookup_alter_eq, Hp. reflexivity.
Qed.

(** ** Dashboards *)

(** X16: a Dept HOD acts only on requests addressed to their email: on
    another approver's request Approve and Decline change nothing; on their
    own request in 'Pending Dept HOD' Approve moves it to 'Pending Admin'
    and Decline to 'Declined', the rest of the store unchanged. *)
Theorem hod_actions (h l : string -> string) (s : store) (usr : user_row) (rid : string)
    (r : request_row) :
  requests s !! rid = Some r ->
  (approver_email r <> email usr ->
     step h l s (EvHodApprove usr rid) = s /\ step h l s (EvHodDecline usr rid) = s)
  /\ (approver_email r = email usr -> status r = "Pending Dept HOD" ->
     step h l s (EvHodApprove usr rid)
       = set_requests s (<[rid := with_status "Pending Admin" r]> (requests s))
     /\ step h l s (EvHodDecline usr rid)
       = set_requests s (<[rid := with_status "Declined" r]> (requests s))).
Proof.
  intros Hr. split.
  - intros Hne. apply String.eqb_neq in Hne.
    split; apply step_no_stmts; cbn [event_stmts]; rewrite Hr, Hne, andb_false_r; reflexivity.
  - intros He Hs. split; eapply step_set_status; [|exact Hr| |exact Hr];
      cbn [event_stmts]; rewrite Hr, He, Hs, !String.eqb_refl; reflexivity.
Qed.

Lemma others_stmts_rows (u : user_row) (os : list cart_item) (rids : list string) (d ts : string) :
  (forall i, In i os -> is_stationary i = false) ->
  forall q, In q (others_stmts u os rids d ts) -> insert_or_log (cart_row_ok u d) q.
Proof.
  revert rids. induction os as [|i os IH]; intros rids Hos q Hq; simpl in Hq; [contradiction|].
  destruct Hq as [<-|[<-|Hq]].
  - pose proof (Hos i (or_introl eq_refl)) as Hi. unfold is_stationary in Hi.
    unfold cart_row_ok, new_request. cbn. rewrite Hi. repeat split.
  - exact I.
  - exact (IH (tl rids) (fun j Hj => Hos j (or_intror Hj)) q Hq).
Qed.

Lemma cart_stmts_rows (u : user_row) (cart : list cart_item) (rids : list string) (d ts : string) :
  forall q, In q (process_cart_submission u cart rids d ts) -> insert_or_log (cart_row_ok u d) q.
Proof.
  assert (Ho : forall i, In i (List.filter (fun i => negb (is_stationary i)) cart) ->
                 is_stationary i = false).
  { intros i Hi. apply filter_In in Hi as [_ Hi]. apply negb_true_iff. exact Hi. }
  unfold process_cart_submission. destruct cart as [|c0 cart]; [contradiction|].
  destruct (List.filter is_stationary (c0 :: cart)).
  - exact (others_stmts_rows _ _ _ _ _ Ho).
  - intros q [<-|[<-|Hq]]; [repeat split|exact I|exact (others_stmts_rows _ _ _ _ _ Ho q Hq)].
Qed.

Lemma run_insert_or_log (P : request_row -> Prop) (qs : list stmt) (s : store) :
  (forall q, In q qs -> insert_or_log P q) ->
  forall k r, requests (fst (run s qs)) !! k = Some r -> requests s !! k = Some r \/ P r.
Proof.
  revert s. induction qs as [|q qs IH]; intros s Hq k r Hk; simpl in Hk; [left; exact Hk|].
  destruct (exec s q) as [s1|] eqn:E; [|left; exact Hk].
  destruct (IH s1 (fun q' Hq' => Hq q' (or_intror Hq')) k r Hk) as [H1|H1]; [|right; exact H1].
  pose proof (Hq q (or_introl eq_refl)) as Hp.
  destruct q; simpl in Hp, E; try contradiction.
  - destruct (requests s !! id r0) eqn:Er; [discriminate|]. injection E as <-. simpl in H1.
    destruct (decide (k = id r0)) as [->|Hne].
    + rewrite lookup_insert_eq in H1. injection H1 as <-. right. exact Hp.
    + rewrite lookup_insert_ne in H1 by congruence. left. exact H1.
  - injection E as <-. left. exact H1.
Qed.

(** X17: every request row a cart submission creates belongs to the
    submitting user: it carries their username, name, department and HOD
    email (the HOD who sees it), the submission date, no invoice, an empty
    SAC note, and vendor 'Store' for the merged Stationary row or
    'Pending' for any other. *)
Theorem cart_rows_owned (h l : string -> string) (s : store) (u : user_row)
    (cart : list cart_item) (rids : list string) (d ts k : string) (r : request_row) :
  requests s !! k = None ->
  requests (step h l s (EvSubmitCart u cart rids d ts)) !! k = Some r ->
  user_key r = username u /\ requester_name r = name u /\ department r = dept u
  /\ approver_email r = hod_email u /\ date r = d /\ invoice_img r = None /\ sac_note r = ""
  /\ vendor r = (if String.eqb (category r) "Stationary" then "Store" else "Pending").
Proof.
  intros Hk Hr.
  destruct (run_insert_or_log (cart_row_ok u d) _ s (cart_stmts_rows u cart rids d ts) k r Hr)
    as [H|H]; [congruence|exact H].
Qed.

(** X18: the Admin's Issue acts only on Stationary requests and Resolve
    only on non-Stationary 'CUG Issue' ones; pressed on any other pending
    Admin request they change nothing. *)
Theorem admin_issue_resolve (h l : string -> string) (s : store) (rid : string) (r : request_row) :
  requests s !! rid = Some r -> status r = "Pending Admin" ->
  step h l s (EvAdminIssue rid)
    = (if String.eqb (category r) "Stationary"
       then set_requests s (<[rid := with_status "Completed (Fulfilled)" r]> (requests s)) else s)
  /\ step h l s (EvAdminResolve rid)
    = (if negb (String.eqb (category r) "Stationary") && String.eqb (item r) "CUG Issue"
       then set_requests s (<[rid := with_status "Completed (Resolved)" r]> (requests s)) else s).
Proof.
  intros Hr Hs.
  assert (Ha : admin_row s rid = Some r) by (unfold admin_row; rewrite Hr, Hs; reflexivity).
  split.
  - destruct (String.eqb (category r) "Stationary") eqn:Ec.
    + eapply step_set_status; [|exact Hr]. cbn [event_stmts]. rewrite Ha, Ec. reflexivity.
    + apply step_no_stmts. cbn [event_stmts]. rewrite Ha, Ec. reflexivity.
  - destruct (negb (String.eqb (category r) "Stationary") && String.eqb (item r) "CUG Issue")%bool
      eqn:Ec.
    + eapply step_set_status; [|exact Hr]. cbn [event_stmts]. rewrite Ha, Ec. reflexivity.
    + apply step_no_stmts. cbn [event_stmts]. rewrite Ha, Ec. reflexivity.
Qed.

(** X19: in every reachable store each row of the SAC savings report is a
    strictly positive saving of a request that has passed the SAC review
    (status 'Pending ED', 'Pending GMD' or 'Approved'). *)
Theorem reachable_savings_positive (h l : string -> string) (s : store) (k : string) (v : Q) :
  reachable h l s -> savings_report s !! k = Some v ->
  (0 < v)%Q /\ exists r, requests s !! k = Some r
    /\ (status r = "Pending ED" \/ status r = "Pending GMD" \/ status r = "Approved").
Proof.
  intros Hreach Hv. unfold savings_report in Hv. rewrite lookup_omap in Hv.
  destruct (requests s !! k) as [r|] eqn:Hk; simpl in Hv; [|discriminate].
  unfold savings_row in Hv.
  destruct (negb (Qle_bool (initial_cost r) (amount r))) eqn:Eq; simpl in Hv; [|discriminate].
  destruct (report_status (status r)) eqn:Es; [|discriminate]. injection Hv as <-.
  split.
  - apply negb_true_iff in Eq. unfold Qminus. apply (proj1 (Qlt_minus_iff (amount r) (initial_cost r))), Qnot_le_lt. intros Hle.
    apply Qle_bool_iff in Hle. congruence.
  - destruct (reachable_status_known h l s k r Hreach Hk) as (_ & Hp & Hra).
    exists r. split; [reflexivity|]. unfold report_status in Es.
    repeat (apply orb_true_iff in Es as [Es|Es]); apply String.eqb_eq in Es;
      tauto.
Qed.

(** X20: entries of a staff member's request history are never lost:
    over any session each entry stays, with the same date, category and
    item (only its status may advance). *)
Theorem staff_history_kept (h l : string -> string) (os : list op) (s : store)
    (uname k dt cat it st : string) :
  staff_history s uname !! k = Some (dt, cat, it, st) ->
  exists st', staff_history (apply_ops h l s os) uname !! k = Some (dt, cat, it, st').
Proof.
  intros Hk. unfold staff_history in *. rewrite lookup_omap in Hk |- *.
  destruct (requests s !! k) as [r|] eqn:Hr; simpl in Hk; [|discriminate].
  destruct (proj1 (proj2 (proj2 (apply_ops_grows h l os s))) k r Hr) as (r' & Hr' & Hf).
  rewrite Hr'. simpl. unfold req_fixed in Hf.
  injection Hf as _ Hu _ _ _ Hc Hi Hd. rewrite Hu.
  destruct (String.eqb (user_key r) uname); [|discriminate]. injection Hk as <- <- <- <-.
  exists (status r'). rewrite Hd, Hc, Hi. reflexivity.
Qed.

(** ** Witnesses on concrete stores *)

Lemma reachable_apply_ops (h l : string -> string) (os : list op) (s : store) :
  reachable h l s -> reachable h l (apply_ops h l s os).
Proof.
  unfold apply_ops. revert s. induction os as [|o os IH]; intros s Hs; simpl; [exact Hs|].
  apply IH. destruct o; simpl; [apply reach_restart | apply reach_step]; exact Hs.
Qed.

Lemma demo_reachable : reachable (fun x => x) (fun x => x) demo_store.
Proof. apply reachable_apply_ops, reach_init. Qed.

Example demo_store_rows :
  requests demo_store !! "r1" = Some demo_row /\ payments demo_store !! "p1" = Some demo_payment.
Proof. split; vm_compute; reflexivity. Qed.

Lemma apply_ops_keeps_requests_witness :
  requests sample_store !! "r4" = Some (req0 "r4" "Facility" "Plumbing" "Pending Admin") /\
  exists r', requests (apply_ops (fun x => x) (fun x => x) sample_store
                [OpEvent (EvAdminSubmit "r4" "Acme" 70 (Some [Byte.x02])); OpRerun]) !! "r4" = Some r'
             /\ req_fixed r' = req_fixed (req0 "r4" "Facility" "Plumbing" "Pending Admin").
Proof.
  split; [reflexivity|].
  apply (apply_ops_keeps_requests (fun x => x) (fun x => x)). reflexivity.
Defined.

Lemma apply_ops_keeps_users_witness :
  users fresh_user_store !! "ana"
    = Some (mk_user "ana" "h" "Staff" "Ana" "ana@co.com" "Ops" "hod@co.com" 1) /\
  exists u', users (apply_ops (fun x => x) (fun x => x) fresh_user_store
                [OpEvent (EvChangePassword "ana" "pw" "pw")]) !! "ana" = Some u'
             /\ user_fixed u' = user_fixed (mk_user "ana" "h" "Staff" "Ana" "ana@co.com" "Ops" "hod@co.com" 1).
Proof.
  split; [reflexivity|].
  apply (apply_ops_keeps_users (fun x => x) (fun x => x)). reflexivity.
Defined.

Lemma apply_ops_keeps_payments_witness :
  payments demo_store !! "p1" = Some demo_payment /\
  exists p', payments (apply_ops (fun x => x) (fun x => x) demo_store [OpEvent (EvMarkPaid "p1")])
               !! "p1" = Some p' /\ pay_fixed p' = pay_fixed demo_payment.
Proof.
  split; [vm_compute; reflexivity|].
  apply (apply_ops_keeps_payments (fun x => x) (fun x => x)). vm_compute. reflexivity.
Defined.

Lemma reachable_init_db_idempotent_witness :
  reachable (fun x => x) (fun x => x) demo_store /\ init_db (fun x => x) demo_store = demo_store.
Proof.
  split; [exact demo_reachable|].
  apply (reachable_init_db_idempotent (fun x => x) (fun x => x)). exact demo_reachable.
Defined.

Lemma reachable_request_status_witness :
  requests demo_store !! "r1" = Some demo_row /\
  known_status (status demo_row) = true /\ status demo_row <> "Paid"
  /\ status demo_row <> "Ready for Accounts".
Proof.
  split; [vm_compute; reflexivity|].
  apply (reachable_request_status (fun x => x) (fun x => x) demo_store "r1");
    [exact demo_reachable | vm_compute; reflexivity].
Defined.

Lemma reachable_hod_spend_approved_witness :
  hod_spend demo_store "Ops" !! "r1" = Some ("2026-01-02", "AC Repair", "Acme", 50%Q) /\
  exists r, requests demo_store !! "r1" = Some r /\ status r = "Approved" /\ department r = "Ops"
            /\ ("2026-01-02", "AC Repair", "Acme", 50%Q) = (date r, item r, vendor r, amount r).
Proof.
  split; [vm_compute; reflexivity|].
  apply (reachable_hod_spend_approved (fun x => x) (fun x => x));
    [exact demo_reachable | vm_compute; reflexivity].
Defined.

Lemma reachable_payment_matches_request_witness :
  payments demo_store !! "p1" = Some demo_payment /\
  payment_id demo_payment = "p1"
  /\ (pay_status demo_payment = "Ready for Accounts" \/ pay_status demo_payment = "Paid")
  /\ exists r, requests demo_store !! req_id demo_payment = Some r /\ status r = "Approved"
               /\ pay_amount demo_payment = amount r /\ pay_vendor demo_payment = vendor r.
Proof.
  split; [vm_compute; reflexivity|].
  apply (reachable_payment_matches_request (fun x => x) (fun x => x) demo_store "p1");
    [exact demo_reachable | vm_compute; reflexivity].
Defined.

Lemma reachable_one_payment_per_request_witness :
  payments demo_store !! "p1" = Some demo_payment /\ "p1" = "p1".
Proof.
  split; [vm_compute; reflexivity|].
  apply (reachable_one_payment_per_request (fun x => x) (fun x => x) demo_store "p1" "p1"
           demo_payment demo_payment);
    [exact demo_reachable | vm_compute; reflexivity | vm_compute; reflexivity | reflexivity].
Defined.

Lemma change_password_success_witness :
  login_ok (fun x => x) (fun x => x)
    (step (fun x => x) (fun x => x) fresh_user_store (EvChangePassword "ana" "pw" "pw")) "ana" "pw"
  = true.
Proof.
  destruct (change_password_success (fun x => x) (fun x => x) fresh_user_store "ana" "pw"
              (mk_user "ana" "h" "Staff" "Ana" "ana@co.com" "Ops" "hod@co.com" 1))
    as (_ & H & _); [reflexivity | reflexivity | discriminate |].
  apply H. reflexivity.
Defined.

Lemma change_password_rejected_witness :
  step (fun x => x) (fun x => x) fresh_user_store (EvChangePassword "ana" "pw" "pq")
  = fresh_user_store.
Proof.
  apply (change_password_rejected (fun x => x) (fun x => x)). intros (H & _). discriminate.
Defined.

Lemma create_user_fresh_witness :
  login_ok (fun x => x) (fun x => x)
    (step (fun x => x) (fun x => x) sample_store
       (EvCreateUser "bob" "tmp" "Bob" "bob@co.com" "Staff" "Ops" "hod@co.com")) "bob" "tmp" = true.
Proof.
  apply (create_user_fresh (fun x => x) (fun x => x)); [reflexivity | discriminate | discriminate].
Defined.

Lemma create_user_rejected_witness :
  step (fun x => x) (fun x => x) fresh_user_store
    (EvCreateUser "ana" "tmp" "Ann" "ann@co.com" "Staff" "Ops" "") = fresh_user_store.
Proof.
  apply (create_user_rejected (fun x => x) (fun x => x)). right. right. discriminate.
Defined.

Lemma repeat_press_no_effect_witness :
  step (fun x => x) (fun x => x)
    (step (fun x => x) (fun x => x) sample_store (EvApprove "GMD" "r1" "p1")) (EvApprove "GMD" "r1" "p1")
  = step (fun x => x) (fun x => x) sample_store (EvApprove "GMD" "r1" "p1").
Proof. apply repeat_press_no_effect. intros u p ts. discriminate. Defined.

Lemma hod_actions_witness :
  step (fun x => x) (fun x => x) sample_store
    (EvHodApprove (mk_user "hod2" "h" "Dept HOD" "Ike" "ike@co.com" "IT" "" 0) "r4") = sample_store.
Proof.
  destruct (hod_actions (fun x => x) (fun x => x) sample_store
              (mk_user "hod2" "h" "Dept HOD" "Ike" "ike@co.com" "IT" "" 0) "r4"
              (req0 "r4" "Facility" "Plumbing" "Pending Admin")) as [H _]; [reflexivity|].
  apply H. discriminate.
Defined.

Lemma cart_rows_owned_witness :
  requests (step (fun x => x) (fun x => x) sample_store
              (EvSubmitCart staff_user [mk_item "Facility" "AC Repair" 1] ["a"] "2026-01-02" "t"))
    !! "a" = Some (new_request staff_user "a" "Facility" "AC Repair" "Pending Dept HOD" "Pending"
                     "2026-01-02")
  /\ vendor (new_request staff_user "a" "Facility" "AC Repair" "Pending Dept HOD" "Pending"
               "2026-01-02") = "Pending".
Proof.
  split; [vm_compute; reflexivity|].
  destruct (cart_rows_owned (fun x => x) (fun x => x) sample_store staff_user
              [mk_item "Facility" "AC Repair" 1] ["a"] "2026-01-02" "t" "a"
              (new_request staff_user "a" "Facility" "AC Repair" "Pending Dept HOD" "Pending"
                 "2026-01-02")) as (_ & _ & _ & _ & _ & _ & _ & H);
    [reflexivity | vm_compute; reflexivity |].
  exact H.
Defined.

Lemma admin_issue_resolve_witness :
  step (fun x => x) (fun x => x) sample_store (EvAdminIssue "r4") = sample_store.
Proof.
  destruct (admin_issue_resolve (fun x => x) (fun x => x) sample_store "r4"
              (req0 "r4" "Facility" "Plumbing" "Pending Admin")) as [H _]; [reflexivity|reflexivity|].
  exact H.
Defined.

Lemma reachable_savings_positive_witness :
  savings_report demo_store !! "r1" = Some (80 - 50)%Q /\ (0 < 80 - 50)%Q.
Proof.
  split; [vm_compute; reflexivity|].
  apply (reachable_savings_positive (fun x => x) (fun x => x) demo_store "r1");
    [exact demo_reachable | vm_compute; reflexivity].
Defined.

Lemma staff_history_kept_witness :
  staff_history sample_store "ana" !! "r1" = Some ("2026-01-01", "Facility", "AC Repair", "Pending GMD") /\
  exists st', staff_history (apply_ops (fun x => x) (fun x => x) sample_store
                 [OpEvent (EvApprove "GMD" "r1" "p1")]) "ana" !! "r1"
              = Some ("2026-01-01", "Facility", "AC Repair", st').
Proof.
  split; [vm_compute; reflexivity|].
  apply (staff_history_kept (fun x => x) (fun x => x) _ _ "ana" "r1" _ _ _ "Pending GMD"). vm_compute. reflexivity.
Defined.

(** ** The approval chain *)

(** C1: each approval action (Dept HOD approve, Admin costed submit, SS HOD
    approve, SAC validate, ED approve, GMD approve) is tied to its own stage
    of the chain Pending Dept HOD -> Pending Admin -> Pending SS HOD ->
    Pending SAC -> Pending ED -> Pending GMD -> Approved: (1) it never skips
    a stage or moves a request backwards — every request keeps its status
    or moves one step along the chain; (2) on a request in the role's own
    stage, with the form conditions of the page met (the HOD's own request;
    the Admin's vendor, cost > 0 and invoice on a non-Stationary row), it
    advances that request to the next stage; (3) it acts at all only on a
    request in the role's own stage. *)
Theorem C1_approval_follows_chain (h l : string -> string) (s : store) (ev : event) :
  is_approval ev = true ->
  (forall k r r', requests s !! k = Some r -> requests (step h l s ev) !! k = Some r' ->
     status r' = status r \/ chain_next (status r) = Some (status r'))
  /\ (forall rid r from to, ev_rid ev = Some rid -> spec_stage ev = Some (from, to) ->
        requests s !! rid = Some r -> status r = from -> form_gate ev r ->
        chain_next from = Some to
        /\ exists r', requests (step h l s ev) !! rid = Some r' /\ status r' = to)
  /\ (event_stmts h l s ev <> [] ->
        exists rid r from to, ev_rid ev = Some rid /\ spec_stage ev = Some (from, to)
          /\ requests s !! rid = Some r /\ status r = from /\ form_gate ev r).
Proof.
  intros Hap. split; [|split].
  - intros k r r'. exact (approval_one_step h l s ev k r r' Hap).
  - intros rid r from to Hrid Hsp Hr Hs Hg.
    destruct ev as [| | | |usr rid0| | | |rid0 v c img|rl rid0 pid| |rid0 cost note|];
      try discriminate; injection Hrid as ->.
    + (* Dept HOD approve *)
      cbn in Hsp. injection Hsp as <- <-. cbn in Hg. split; [reflexivity|].
      assert (E : event_stmts h l s (EvHodApprove usr rid) = [SSetStatus "Pending Admin" rid]).
      { cbn [event_stmts]. rewrite Hr, Hs, Hg, !String.eqb_refl. reflexivity. }
      destruct (step_set_status h l s _ _ _ r E Hr) as [_ Hl].
      eexists. split; [exact Hl|reflexivity].
    + (* Admin costed submit *)
      cbn in Hsp. injection Hsp as <- <-. destruct Hg as (Hc & Hv & Hq & Hi).
      destruct img as [ib|]; [|contradiction]. split; [reflexivity|].
      apply String.eqb_neq in Hc, Hv. apply Qpos_spec in Hq.
      assert (E : event_stmts h l s (EvAdminSubmit rid v c (Some ib)) = [SAdminQuote v c ib rid]).
      { cbn [event_stmts]. unfold admin_row. rewrite Hr, Hs. cbn. rewrite Hc, Hv, Hq. reflexivity. }
      exists (with_quote v c ib r). split; [|reflexivity].
      unfold step. rewrite E. cbn [run exec fst requests set_requests].
      rewrite lookup_alter_eq, Hr. reflexivity.
    + (* SS HOD, ED and GMD approve *)
      cbn in Hsp.
      destruct (String.eqb rl "SS HOD") eqn:E1;
        [apply String.eqb_eq in E1; subst rl; injection Hsp as <- <-|];
        [| destruct (String.eqb rl "ED") eqn:E2;
           [apply String.eqb_eq in E2; subst rl; injection Hsp as <- <-|];
           [| destruct (String.eqb rl "GMD") eqn:E3;
              [apply String.eqb_eq in E3; subst rl; injection Hsp as <- <-|discriminate]]];
        split; try reflexivity.
      * assert (E : event_stmts h l s (EvApprove "SS HOD" rid pid) = [SSetStatus "Pending SAC" rid]).
        { cbn [event_stmts]. cbn [approver_config]. rewrite Hr, Hs. reflexivity. }
        destruct (step_set_status h l s _ _ _ r E Hr) as [_ Hl].
        eexists. split; [exact Hl|reflexivity].
      * assert (E : event_stmts h l s (EvApprove "ED" rid pid) = [SSetStatus "Pending GMD" rid]).
        { cbn [event_stmts]. cbn [approver_config]. rewrite Hr, Hs. reflexivity. }
        destruct (step_set_status h l s _ _ _ r E Hr) as [_ Hl].
        eexists. split; [exact Hl|reflexivity].
      * assert (E : event_stmts h l s (EvApprove "GMD" rid pid)
                    = [SSetStatus "Approved" rid;
                       SInsertPayment (mk_payment pid rid (amount r) "Ready for Accounts" (vendor r))]).
        { cbn [event_stmts]. cbn [approver_config]. rewrite Hr, Hs. reflexivity. }
        exists (with_status "Approved" r). split; [|reflexivity].
        unfold step. rewrite E. cbn [run exec set_requests payments payment_id].
        destruct (payments s !! pid); cbn; rewrite lookup_alter_eq, Hr; reflexivity.
    + (* SAC validate *)
      cbn in Hsp. injection Hsp as <- <-. split; [reflexivity|].
      assert (E : event_stmts h l s (EvSacValidate rid cost note) = [SSacValidate cost note rid]).
      { cbn [event_stmts]. rewrite Hr, Hs. reflexivity. }
      exists (with_sac cost note r). split; [|reflexivity].
      unfold step. rewrite E. cbn [run exec fst requests set_requests].
      rewrite lookup_alter_eq, Hr. reflexivity.
  - intros Hne. destruct (event_stmts h l s ev) as [|q0 qs] eqn:E0; [contradiction|].
    destruct ev as [| | | |usr rid| | | |rid v c img|rl rid pid| |rid cost note|];
      try discriminate; unfold event_stmts in E0.
    + destruct (requests s !! rid) as [r|] eqn:Hr; [|discriminate].
      destruct (String.eqb (status r) "Pending Dept HOD" && _)%bool eqn:Eg; [|discriminate].
      apply andb_true_iff in Eg as [Es Ee]. apply String.eqb_eq in Es, Ee.
      exists rid, r, "Pending Dept HOD", "Pending Admin". repeat split; assumption.
    + unfold admin_row in E0. destruct (requests s !! rid) as [r|] eqn:Hr; [|discriminate].
      destruct (String.eqb (status r) "Pending Admin") eqn:Es; [|discriminate].
      destruct (negb (String.eqb (category r) "Stationary")) eqn:Ec; [|discriminate].
      destruct img as [ib|]; [|discriminate].
      destruct (negb (String.eqb v "") && Qpos c)%bool eqn:Eg; [|discriminate].
      apply andb_true_iff in Eg as [Ev Eq]. apply negb_true_iff, String.eqb_neq in Ev, Ec.
      apply Qpos_spec in Eq. apply String.eqb_eq in Es.
      exists rid, r, "Pending Admin", "Pending SS HOD".
      split; [reflexivity|]. split; [reflexivity|]. split; [exact Hr|]. split; [exact Es|].
      split; [exact Ec|]. split; [exact Ev|]. split; [exact Eq|discriminate].
    + destruct (approver_config rl) as [[t nx]|] eqn:Ec; [|discriminate].
      destruct (requests s !! rid) as [r|] eqn:Hr; [|discriminate].
      destruct (String.eqb (status r) t) eqn:Et; [|discriminate]. apply String.eqb_eq in Et.
      exists rid, r, t, nx. split; [reflexivity|].
      apply approver_config_cases in Ec as [(-> & -> & ->)|[(-> & -> & ->)|(-> & -> & ->)]];
        (split; [reflexivity|]; split; [exact Hr|]; split; [exact Et|exact I]).
    + destruct (requests s !! rid) as [r|] eqn:Hr; [|discriminate].
      destruct (String.eqb (status r) "Pending SAC") eqn:Es; [|discriminate].
      apply String.eqb_eq in Es. exists rid, r, "Pending SAC", "Pending ED".
      repeat split; assumption.
Qed.

Lemma C1_approval_follows_chain_witness :
  requests sample_store !! "r3" = Some (req0 "r3" "Facility" "Electrical" "Pending SS HOD")
  /\ chain_next "Pending SS HOD" = Some "Pending SAC"
  /\ exists r', requests (step (fun x => x) (fun x => x) sample_store (EvApprove "SS HOD" "r3" "p"))
                  !! "r3" = Some r' /\ status r' = "Pending SAC".
Proof.
  split; [reflexivity|].
  destruct (C1_approval_follows_chain (fun x => x) (fun x => x) sample_store
              (EvApprove "SS HOD" "r3" "p")) as (_ & H & _); [reflexivity|].
  apply (H "r3" (req0 "r3" "Facility" "Electrical" "Pending SS HOD")); reflexivity.
Defined.
